(** * Business-dataset analyses of [adm.py]: a shallow embedding

    The module computes, from a comma separated table, a Minkowski-style
    distance per country, a Welch t statistic per country, their join, and a
    ranking of organisations inside each category.

    Modelling choices, fixed once for the whole development:
    - a Python [float] is modelled by the real number it stands for ([R]),
      and [+], [-], [*], [/] on floats by the operations of [R]: the
      rounding of a value in its last bits, infinities and NaN are outside
      the model; a Python [int] is a [Z];
    - the power [**] on floats is not computed inside the model: C's [pow]
      stands behind it, it overflows and underflows, and it is taken as an
      interface with the laws that Python gives it ([PowerLaws]).  Two
      implementations are given: the exact power of real numbers, and that
      power cut to the range of a double;
    - the floats that the ranking sorts by hold integers; they are modelled
      exactly, by the integer they hold, with the rounding to 53 bits
      written out;
    - a Python [dict] is an association list in insertion order, which is the
      order Python enumerates it in;
    - an exception is the [Raise] branch of the [result] type;
    - the builtins [int()], [float()] on strings, the [.4f] format and the
      string methods [strip] and [lower] are taken as an interface
      ([Builtins]); the theorems hold for every implementation of it. *)

From Stdlib Require Import Reals Lra Lia ZArith List String Ascii Bool Arith.
From Stdlib Require Import DecimalString Permutation Sorted.
Import ListNotations.

Open Scope string_scope.

(** ** Exceptions and results *)

Inductive exn : Type :=
| ValueError (msg : string)
| IndexError
| KeyError
| ZeroDivisionError
| OverflowError
| ComplexResult.

Inductive result (A : Type) : Type :=
| Ok (a : A)
| Raise (e : exn).

Arguments Ok {A} a.
Arguments Raise {A} e.

Definition bind {A B : Type} (m : result A) (k : A -> result B) : result B :=
  match m with
  | Ok a => k a
  | Raise e => Raise e
  end.

Notation "x <- m ;; k" := (bind m (fun x => k))
  (at level 61, m at next level, right associativity).
Notation "' pat <- m ;; k" := (bind m (fun x => match x with pat => k end))
  (at level 61, pat pattern, m at next level, right associativity).

(** A [for] loop whose body may raise: the state is threaded through the
    iterations and the first exception ends the loop. *)
Fixpoint for_each {A S : Type} (xs : list A) (body : S -> A -> result S) (s : S)
  : result S :=
  match xs with
  | [] => Ok s
  | x :: xs' =>
      match body s x with
      | Ok s' => for_each xs' body s'
      | Raise e => Raise e
      end
  end.

(** A list comprehension [[f(x) for x in xs]] whose expression may raise. *)
Definition list_comprehension {A C : Type} (f : A -> result C) (xs : list A)
  : result (list C) :=
  for_each xs (fun ys x => y <- f x ;; Ok (ys ++ [y])%list) [].

(** The exceptions that arithmetic can raise. *)
Definition arithmetic_exn (e : exn) : Prop :=
  e = ZeroDivisionError \/ e = OverflowError \/ e = ComplexResult.

(** ** Sequences *)

(** [xs[i]] for a non-negative index. *)
Definition py_index {A : Type} (xs : list A) (i : nat) : result A :=
  match nth_error xs i with
  | Some a => Ok a
  | None => Raise IndexError
  end.

Fixpoint index_from (x : string) (xs : list string) (i : nat) : option nat :=
  match xs with
  | [] => None
  | y :: ys => if String.eqb y x then Some i else index_from x ys (S i)
  end.

Definition not_in_list_msg : string := "is not in list".

(** [xs.index(x)] *)
Definition list_index (xs : list string) (x : string) : result nat :=
  match index_from x xs 0 with
  | Some i => Ok i
  | None => Raise (ValueError not_in_list_msg)
  end.

(** The place of [x] in [xs], counted from 0 (the length when absent). *)
Definition position (x : string) (xs : list string) : nat :=
  match index_from x xs 0 with
  | Some i => i
  | None => List.length xs
  end.

(** ** Dictionaries, in insertion order *)

Definition dict (V : Type) : Type := list (string * V).

Fixpoint dict_get {V : Type} (d : dict V) (k : string) : option V :=
  match d with
  | [] => None
  | (k', v) :: d' => if String.eqb k' k then Some v else dict_get d' k
  end.

Definition dict_mem {V : Type} (d : dict V) (k : string) : bool :=
  match dict_get d k with
  | Some _ => true
  | None => false
  end.

(** [d[k] = v]: an existing key keeps its place, a new key goes last. *)
Fixpoint dict_set {V : Type} (d : dict V) (k : string) (v : V) : dict V :=
  match d with
  | [] => [(k, v)]
  | (k', v') :: d' =>
      if String.eqb k' k then (k', v) :: d' else (k', v') :: dict_set d' k v
  end.

Definition keys {V : Type} (d : dict V) : list string := map fst d.

(** [d[k]] *)
Definition dict_item {V : Type} (d : dict V) (k : string) : result V :=
  match dict_get d k with
  | Some v => Ok v
  | None => Raise KeyError
  end.

(** ** Strings *)

(** The ASCII characters for which [str.isspace] holds. *)
Definition is_space (c : ascii) : bool :=
  let n := nat_of_ascii c in
  ((9 <=? n) && (n <=? 13) || (28 <=? n) && (n <=? 32))%nat.

Fixpoint lstrip (s : string) : string :=
  match s with
  | EmptyString => EmptyString
  | String c s' => if is_space c then lstrip s' else s
  end.

Fixpoint rstrip (s : string) : string :=
  match s with
  | EmptyString => EmptyString
  | String c s' =>
      match rstrip s' with
      | EmptyString => if is_space c then EmptyString else String c EmptyString
      | r => String c r
      end
  end.

(** [s.strip()] on ASCII text. *)
Definition ascii_strip (s : string) : string := rstrip (lstrip s).

(** [s.split(sep)] for a one-character separator. *)
Fixpoint split (sep : ascii) (s : string) : list string :=
  match s with
  | EmptyString => [EmptyString]
  | String c s' =>
      if Ascii.eqb c sep then EmptyString :: split sep s'
      else
        match split sep s' with
        | h :: t => String c h :: t
        | [] => [String c EmptyString]
        end
  end.

Definition lower_char (c : ascii) : ascii :=
  let n := nat_of_ascii c in
  if ((65 <=? n) && (n <=? 90))%nat then ascii_of_nat (n + 32) else c.

(** [s.lower()] on ASCII text. *)
Fixpoint ascii_lower (s : string) : string :=
  match s with
  | EmptyString => EmptyString
  | String c s' => String (lower_char c) (ascii_lower s')
  end.

(** ** Numbers *)

Open Scope R_scope.

(** [a / b] on floats. *)
Definition py_div (a b : R) : result R :=
  if Req_EM_T b 0 then Raise ZeroDivisionError else Ok (a / b).

(** [a / n] for a float [a] and an int [n]. *)
Definition py_div_int (a : R) (n : Z) : result R :=
  if Z.eqb n 0 then Raise ZeroDivisionError else Ok (a / IZR n).

(** [a ** e] in exact arithmetic, with the cases Python tells apart:
    anything to the power 0 is 1, and 0 to a negative power raises.  A
    negative base has a real power for an integer exponent only; otherwise
    Python goes on with a complex number, which this model has no value
    for: [ComplexResult] marks that case. *)
Definition exact_pow (a e : R) : result R :=
  if Req_EM_T e 0 then Ok 1
  else if Req_EM_T a 0 then
    if Rlt_dec e 0 then Raise ZeroDivisionError else Ok 0
  else if Rlt_dec a 0 then
    if Req_EM_T (frac_part e) 0 then
      Ok (if Z.even (Int_part e) then Rpower (- a) e else - Rpower (- a) e)
    else Raise ComplexResult
  else Ok (Rpower a e).

(** The least magnitude that rounds to an infinity, and the greatest that
    rounds to zero, in round-to-nearest on doubles. *)
Definition overflow_threshold : R := IZR (2 ^ 1024 - 2 ^ 970).
Definition underflow_threshold : R := / IZR (2 ^ 1075).

(** [a ** e] with the range of a double: the exact power, except that a
    result too large for a double raises [OverflowError], as Python does
    when [pow] returns an infinity, and a result too small becomes 0.  A
    power with exponent 1 is its base. *)
Definition double_pow (a e : R) : result R :=
  if Req_EM_T e 1 then exact_pow a e
  else
    match exact_pow a e with
    | Ok r =>
        if Rle_dec overflow_threshold (Rabs r) then Raise OverflowError
        else if Rle_dec (Rabs r) underflow_threshold then Ok 0
        else Ok r
    | Raise x => Raise x
    end.

(** [sum(xs)] *)
Definition py_sum (xs : list R) : R := fold_left Rplus xs 0.

(** Nearest integer, ties to the even one. *)
Definition round_half_even (x : R) : Z :=
  let n := Int_part x in
  let f := frac_part x in
  if Rlt_dec f (1 / 2) then n
  else if Rlt_dec (1 / 2) f then (n + 1)%Z
  else if Z.even n then n else (n + 1)%Z.

(** [round(x, 4)] *)
Definition round4 (x : R) : R := IZR (round_half_even (x * 10000)) / 10000.

(** ** Floats that hold an integer

    The sort key of the ranking adds up [float(n)] for integers [n > 0].
    Such a float holds an integer, and is modelled by it; the infinity,
    which a sum can reach, is modelled by [2 ^ 1024], above every double. *)

Definition infinity : Z := (2 ^ 1024)%Z.

(** Rounding a non-negative integer to a double: up to [2 ^ 53] every
    integer is a double; above, the 53 leading bits are kept and the rest
    is rounded to the nearest, ties to the even significand. *)
Definition round_to_double (n : Z) : Z :=
  if (n <? 2 ^ 53)%Z then n
  else
    let shift := (Z.log2 n - 52)%Z in
    let q := Z.shiftr n shift in
    let rest := (n - Z.shiftl q shift)%Z in
    let half := Z.shiftl 1 (shift - 1) in
    let q' := if (half <? rest)%Z || ((rest =? half)%Z && Z.odd q)
              then (q + 1)%Z else q in
    Z.shiftl q' shift.

(** [float(n)] for an [int]: the nearest double, and [OverflowError] when
    that is out of range. *)
Definition float_of_int (n : Z) : result Z :=
  let m := round_to_double (Z.abs n) in
  if (infinity <=? m)%Z then Raise OverflowError else Ok (Z.sgn n * m)%Z.

(** [x + y] for two such floats that are not negative: the sum is rounded,
    and is the infinity when out of range. *)
Definition float_add (x y : Z) : Z := Z.min infinity (round_to_double (x + y)).

(** ** The builtins the program calls on strings and floats *)

Class Builtins : Type := {
  (** [int(s)]: [None] stands for the [ValueError] it raises. *)
  py_int : string -> option Z;
  (** [float(s)]: [None] stands for the [ValueError] it raises. *)
  py_float : string -> option R;
  (** [f"{x:.4f}"] *)
  format_4f : R -> string;
  (** [s.strip()] *)
  strip : string -> string;
  (** [s.lower()] *)
  lower : string -> string;
  (** [a ** e] on floats *)
  py_pow : R -> R -> result R
}.

(** What Python's [**] does on floats whatever [pow] it calls: the cases it
    decides itself (a zero exponent, a zero base), the identity at exponent
    1, and the outcomes that are left for a base that is positive or an
    exponent that is 2: a value that is not negative, or [OverflowError]. *)
Class PowerLaws (B : Builtins) : Prop := {
  pow_zero_exponent : forall a, py_pow a 0 = Ok 1;
  pow_zero_positive : forall e, 0 < e -> py_pow 0 e = Ok 0;
  pow_zero_negative : forall e, e < 0 -> py_pow 0 e = Raise ZeroDivisionError;
  pow_one : forall a, 0 <= a -> py_pow a 1 = Ok a;
  pow_positive : forall a e, 0 < a ->
    (exists r, py_pow a e = Ok r /\ 0 <= r) \/ py_pow a e = Raise OverflowError;
  pow_square : forall a,
    (exists r, py_pow a 2 = Ok r /\ 0 <= r) \/ py_pow a 2 = Raise OverflowError;
  pow_raises : forall a e x, py_pow a e = Raise x -> arithmetic_exn x
}.

Definition int_msg : string := "invalid literal for int() with base 10".
Definition float_msg : string := "could not convert string to float".

Section Program.

Context {B : Builtins}.

(** [line.strip().split(',')] *)
Definition parse_row (line : string) : list string := split "," (strip line).

(** ** [minkowski_distance] *)

Definition dimension_msg : string :=
  "Input vectors must have the same dimensionality.".

Definition minkowski_term (x1 x2 : list R) (p : R) (distance : R) (i : nat)
  : result R :=
  t <- py_pow (Rabs (nth i x1 0 - nth i x2 0)) p ;;
  Ok (distance + t).

Definition minkowski_distance (x1 x2 : list R) (p : R) : result R :=
  if negb (List.length x1 =? List.length x2)%nat then Raise (ValueError dimension_msg)
  else
    distance <- for_each (seq 0 (List.length x1)) (minkowski_term x1 x2 p) 0 ;;
    e <- py_div 1 p ;;
    py_pow distance e.

Definition int_of (s : string) : result Z :=
  match py_int s with
  | Some z => Ok z
  | None => Raise (ValueError int_msg)
  end.

Definition float_of (s : string) : result R :=
  match py_float s with
  | Some x => Ok x
  | None => Raise (ValueError float_msg)
  end.

(** [if k not in d: d[k] = v0] *)
Definition setdefault {V : Type} (d : dict V) (k : string) (v0 : V) : dict V :=
  if dict_mem d k then d else dict_set d k v0.

(** [d[k].append(x)] *)
Definition dict_append {V : Type} (d : dict (list V)) (k : string) (x : V)
  : result (dict (list V)) :=
  l <- dict_item d k ;;
  Ok (dict_set d k (l ++ [x])%list).

(** ** [calculate_minkowski_distances]

    The file is given by its lines, as [readlines] returns them. *)

Definition points : Type := list (Z * R).

(** One iteration of the loop over [lines[1:]]. *)
Definition add_point (header : list string) (employees_index median_salary_index : nat)
    (country_data : dict points) (line : string) : result (dict points) :=
  let row := parse_row line in
  country_index <- list_index header "country" ;;
  country <- py_index row country_index ;;
  employees_cell <- py_index row employees_index ;;
  employees <- int_of employees_cell ;;
  median_salary_cell <- py_index row median_salary_index ;;
  median_salary <- float_of median_salary_cell ;;
  let country_data := setdefault country_data country [] in
  dict_append country_data country (employees, median_salary).

Definition country_points (lines : list string) : result (dict points) :=
  first <- py_index lines 0 ;;
  let header := parse_row first in
  employees_index <- list_index header "number of employees" ;;
  median_salary_index <- list_index header "median Salary" ;;
  for_each (tl lines) (add_point header employees_index median_salary_index) [].

(** The two feature vectors of a group; an [int] meets a [float] in the
    subtraction, where it is converted: the conversion is taken as exact
    here, as the arithmetic on floats is. *)
Definition feature_x1 (pts : points) : list R := map (fun point => IZR (fst point)) pts.
Definition feature_x2 (pts : points) : list R := map (fun point => snd point) pts.

(** One iteration of the loop over [country_data.items()]. *)
Definition add_distance (p : R) (country_distances : dict R) (item : string * points)
  : result (dict R) :=
  let (country, pts) := item in
  minkowski_dist <- minkowski_distance (feature_x1 pts) (feature_x2 pts) p ;;
  Ok (dict_set country_distances country (round4 minkowski_dist)).

Definition calculate_minkowski_distances (lines : list string) (p : R)
  : result (dict R) :=
  country_data <- country_points lines ;;
  for_each country_data (add_distance p) [].

(** ** [calculate_t_test] *)

(** The [try] block of the loop: [None] is the [except ValueError] branch,
    which skips the row; an [IndexError] is not caught. *)
Definition try_profits (row : list string) (profit_2020_index profit_2021_index : nat)
  : result (option (R * R)) :=
  cell_2020 <- py_index row profit_2020_index ;;
  match py_float cell_2020 with
  | None => Ok None
  | Some profit_2020 =>
      cell_2021 <- py_index row profit_2021_index ;;
      match py_float cell_2021 with
      | None => Ok None
      | Some profit_2021 => Ok (Some (profit_2020, profit_2021))
      end
  end.

(** One iteration of the loop over [lines[1:]]; the state is the pair
    [(profits_2020, profits_2021)].  The message printed for a skipped row
    is not part of the state. *)
Definition add_profits (header : list string) (profit_2020_index profit_2021_index : nat)
    (st : dict (list R) * dict (list R)) (line : string)
  : result (dict (list R) * dict (list R)) :=
  let (profits_2020, profits_2021) := st in
  let row := parse_row line in
  country_index <- list_index header "country" ;;
  country <- py_index row country_index ;;
  parsed <- try_profits row profit_2020_index profit_2021_index ;;
  match parsed with
  | None => Ok (profits_2020, profits_2021)
  | Some (profit_2020, profit_2021) =>
      let profits_2020 := setdefault profits_2020 country [] in
      let profits_2021 := setdefault profits_2021 country [] in
      profits_2020 <- dict_append profits_2020 country profit_2020 ;;
      profits_2021 <- dict_append profits_2021 country profit_2021 ;;
      Ok (profits_2020, profits_2021)
  end.

Definition collect_profits (lines : list string)
  : result (dict (list R) * dict (list R)) :=
  first <- py_index lines 0 ;;
  let header := parse_row first in
  profit_2020_index <- list_index header "profits in 2020(million)" ;;
  profit_2021_index <- list_index header "profits in 2021(million)" ;;
  for_each (tl lines) (add_profits header profit_2020_index profit_2021_index) ([], []).

(** [sum([(x - mean) ** 2 for x in values])] *)
Definition sum_sq_dev (values : list R) (mean : R) : result R :=
  squares <- list_comprehension (fun x => py_pow (x - mean) 2) values ;;
  Ok (py_sum squares).

(** The body of the loop over the groups, up to the rounding. *)
Definition t_statistic (profits_2020_values profits_2021_values : list R) : result R :=
  let n1 := Z.of_nat (List.length profits_2020_values) in
  let n2 := Z.of_nat (List.length profits_2021_values) in
  mean_2020 <- py_div_int (py_sum profits_2020_values) n1 ;;
  mean_2021 <- py_div_int (py_sum profits_2021_values) n2 ;;
  sum_2020 <- sum_sq_dev profits_2020_values mean_2020 ;;
  var_2020 <- py_div_int sum_2020 (n1 - 1) ;;
  std_dev_2020 <- py_pow var_2020 0.5 ;;
  sum_2021 <- sum_sq_dev profits_2021_values mean_2021 ;;
  var_2021 <- py_div_int sum_2021 (n2 - 1) ;;
  std_dev_2021 <- py_pow var_2021 0.5 ;;
  square_2020 <- py_pow std_dev_2020 2 ;;
  a <- py_div_int square_2020 n1 ;;
  square_2021 <- py_pow std_dev_2021 2 ;;
  b <- py_div_int square_2021 n2 ;;
  denominator <- py_pow (a + b) 0.5 ;;
  py_div (mean_2020 - mean_2021) denominator.

(** One iteration of the loop over the keys of [profits_2020]. *)
Definition add_score (profits_2020 profits_2021 : dict (list R))
    (t_test_scores : dict R) (country : string) : result (dict R) :=
  profits_2020_values <- dict_item profits_2020 country ;;
  profits_2021_values <- dict_item profits_2021 country ;;
  t <- t_statistic profits_2020_values profits_2021_values ;;
  Ok (dict_set t_test_scores country (round4 t)).

Definition calculate_t_test (lines : list string) : result (dict R) :=
  '(profits_2020, profits_2021) <- collect_profits lines ;;
  for_each (keys profits_2020) (add_score profits_2020 profits_2021) [].

(** ** [combine_t_test_and_minkowski] *)

Definition add_combined (t_test_results minkowski_results : dict R)
    (combined_results : dict (R * R)) (country : string) : result (dict (R * R)) :=
  if dict_mem minkowski_results country then
    t <- dict_item t_test_results country ;;
    m <- dict_item minkowski_results country ;;
    Ok (dict_set combined_results country (t, m))
  else Ok combined_results.

Definition combine_t_test_and_minkowski (lines : list string) (p : R)
  : result (dict (R * R)) :=
  t_test_results <- calculate_t_test lines ;;
  minkowski_results <- calculate_minkowski_distances lines p ;;
  for_each (keys t_test_results) (add_combined t_test_results minkowski_results) [].

(** The entry of the inner join of two results under a key. *)
Definition joined (t m : dict R) (k : string) : option (R * R) :=
  match dict_get t k, dict_get m k with
  | Some tv, Some mv => Some (tv, mv)
  | _, _ => None
  end.

(** ** [calculate_category_data] *)

(** One list [[employees, percentage]] of an organisation, and what has been
    appended to it since (the ranks). *)
Record entry : Type := mk_entry {
  employees : Z;
  percentage : string;
  appended : list nat
}.

Definition orgs : Type := dict (list entry).

(** The [try] block of the loop over [csv_data[1:]]. *)
Definition category_row_try (category_data : dict orgs) (row : list string)
  : result (dict orgs) :=
  category_cell <- py_index row 5 ;;
  let category := lower category_cell in
  org_id <- py_index row 0 ;;
  employees_cell <- py_index row 6 ;;
  employees <- int_of employees_cell ;;
  cell_2020 <- py_index row 8 ;;
  profit_2020 <- float_of cell_2020 ;;
  cell_2021 <- py_index row 9 ;;
  profit_2021 <- float_of cell_2021 ;;
  if (employees <=? 0)%Z then Ok category_data
  else
    change <- py_div (profit_2021 - profit_2020) profit_2020 ;;
    let profit_change_percentage := format_4f (Rabs (change * 100)) in
    let category_data := setdefault category_data category [] in
    org_data <- dict_item category_data category ;;
    let org_data := setdefault org_data org_id [] in
    org_info <- dict_item org_data org_id ;;
    let data := mk_entry employees profit_change_percentage [] in
    Ok (dict_set category_data category
          (dict_set org_data org_id (org_info ++ [data])%list)).

(** [except (ValueError, IndexError): continue] *)
Definition category_row (category_data : dict orgs) (row : list string)
  : result (dict orgs) :=
  match category_row_try category_data row with
  | Raise (ValueError _) => Ok category_data
  | Raise IndexError => Ok category_data
  | r => r
  end.

(** The rows the specification says are skipped: a row too short for one
    of the positions 0, 5, 6, 8, 9, a row with a cell that does not parse,
    a row with an employee count that is not positive. *)
Definition skipped_row (row : list string) : Prop :=
  (List.length row <= 9)%nat
  \/ (exists cell, nth_error row 6 = Some cell
        /\ (py_int cell = None \/ exists n, py_int cell = Some n /\ (n <= 0)%Z))
  \/ (exists cell, nth_error row 8 = Some cell /\ py_float cell = None)
  \/ (exists cell, nth_error row 9 = Some cell /\ py_float cell = None).

(** The summed employee count of an organisation, as an integer. *)
Definition size_score (org_info : list entry) : Z :=
  fold_left Z.add (map employees org_info) 0%Z.

(** The sort key [sum(float(data[0]) for data in x[1])]: each count is
    converted, which may raise, and added to the float that the counts
    before it have summed to, from left to right.  The sum starts from the
    [int] 0, to which the first float is added as it is.  (A [sum] that
    also adds up the rounding errors of its additions, as later versions of
    Python do, gives the same key whenever no addition rounds.) *)
Definition sort_key (org_info : list entry) : result Z :=
  for_each org_info
    (fun total data => x <- float_of_int (employees data) ;; Ok (float_add total x))
    0%Z.

(** An item of the dictionary with its key, as the sort holds it. *)
Definition keyed : Type := Z * (string * list entry).

Fixpoint insert_desc (x : keyed) (l : list keyed) : list keyed :=
  match l with
  | [] => [x]
  | y :: l' =>
      if (fst y <=? fst x)%Z then x :: y :: l'
      else y :: insert_desc x l'
  end.

(** [sorted(org_data.items(), key=..., reverse=True)]: the keys of all
    items are computed first, in order.  Python's sort is stable, also with
    [reverse=True], so its result is the one stable arrangement by
    decreasing key; insertion from the right computes that arrangement. *)
Definition sorted_desc (org_data : orgs) : result (list (string * list entry)) :=
  keyed_items <-
    list_comprehension (fun item => k <- sort_key (snd item) ;; Ok (k, item)) org_data ;;
  Ok (map snd (fold_right insert_desc [] keyed_items)).

(** [data.append(rank)] *)
Definition append_rank (rank : nat) (data : entry) : entry :=
  mk_entry (employees data) (percentage data) (appended data ++ [rank])%list.

(** One iteration of the loop over [enumerate(sorted_orgs, start=1)]: the
    lists of [org_info] are the very lists held by [org_data], so appending
    to them changes the value stored under [org_id]. *)
Definition rank_org (org_data : orgs) (ranked : nat * (string * list entry)) : orgs :=
  let '(rank, (org_id, org_info)) := ranked in
  dict_set org_data org_id (map (append_rank rank) org_info).

(** [enumerate(xs, start=1)] *)
Definition enumerate1 {A : Type} (xs : list A) : list (nat * A) :=
  combine (seq 1 (List.length xs)) xs.

Definition rank_orgs (org_data : orgs) : result orgs :=
  sorted_orgs <- sorted_desc org_data ;;
  Ok (fold_left rank_org (enumerate1 sorted_orgs) org_data).

(** The loop over [category_data.items()]: each [org_data] is changed in
    place, the outer dictionary keeps its keys; an exception of a sort key
    ends the call. *)
Definition rank_categories (category_data : dict orgs) : result (dict orgs) :=
  list_comprehension
    (fun item => ranked <- rank_orgs (snd item) ;; Ok (fst item, ranked))
    category_data.

Definition calculate_category_data (csv_data : list (list string))
  : result (dict orgs) :=
  category_data <- for_each (tl csv_data) category_row [] ;;
  rank_categories category_data.

End Program.

(** ** Predicates on the category data *)

(** [x] is to be ranked before [y]: a greater sort key, or the same key
    and an earlier place in the dictionary [od]. *)
Definition goes_before (od : orgs) (x y : keyed) : Prop :=
  (fst y < fst x)%Z
  \/ (fst x = fst y
      /\ (position (fst (snd x)) (keys od) < position (fst (snd y)) (keys od))%nat).



(** ** The paired sample, as the specification describes it

    A second description of what [collect_profits] builds, following the
    specification: a data row counts when both of its profit cells parse,
    and a group's two sequences are the two values of its counting rows, in
    row order. *)

Section PairedSample.

Context {B : Builtins}.

Definition paired_row (country_index profit_2020_index profit_2021_index : nat)
    (line : string) : option (string * (R * R)) :=
  let row := parse_row line in
  match nth_error row country_index,
        nth_error row profit_2020_index,
        nth_error row profit_2021_index with
  | Some country, Some cell_2020, Some cell_2021 =>
      match py_float cell_2020, py_float cell_2021 with
      | Some profit_2020, Some profit_2021 => Some (country, (profit_2020, profit_2021))
      | _, _ => None
      end
  | _, _, _ => None
  end.

Fixpoint choose {A C : Type} (f : A -> option C) (xs : list A) : list C :=
  match xs with
  | [] => []
  | x :: xs' =>
      match f x with
      | Some c => c :: choose f xs'
      | None => choose f xs'
      end
  end.

(** The counting rows of a table, in row order. *)
Definition paired_rows (lines : list string) : list (string * (R * R)) :=
  match lines with
  | [] => []
  | first :: rest =>
      let header := parse_row first in
      match index_from "country" header 0,
            index_from "profits in 2020(million)" header 0,
            index_from "profits in 2021(million)" header 0 with
      | Some ci, Some i20, Some i21 => choose (paired_row ci i20 i21) rest
      | _, _, _ => []
      end
  end.

(** The counting rows of one country. *)
Definition rows_of (country : string) (rows : list (string * (R * R)))
  : list (R * R) :=
  map snd (filter (fun r => String.eqb (fst r) country) rows).

(** A group exists once it has a row. *)
Definition group_values (values : list R) : option (list R) :=
  match values with
  | [] => None
  | _ => Some values
  end.

(** The two collections agree with a list of counting rows. *)
Definition lockstep (st : dict (list R) * dict (list R)) (rows : list (string * (R * R)))
  : Prop :=
  keys (fst st) = keys (snd st)
  /\ forall country,
       dict_get (fst st) country = group_values (map fst (rows_of country rows))
       /\ dict_get (snd st) country = group_values (map snd (rows_of country rows)).

End PairedSample.

(** ** An implementation of the builtins on plain decimal literals

    Signs, digits and one decimal point: the literals of the examples.  It
    serves to run the program on concrete tables. *)

Definition unsigned_int (s : string) : option Z :=
  option_map Z.of_uint (NilZero.uint_of_string s).

Definition signed {A : Type} (parse : string -> option A) (neg : A -> A) (s : string)
  : option A :=
  match s with
  | String "-" s' => option_map neg (parse s')
  | String "+" s' => parse s'
  | _ => parse s
  end.

Definition decimal_int (s : string) : option Z :=
  signed unsigned_int Z.opp (ascii_strip s).

Definition unsigned_decimal (s : string) : option R :=
  match split "." s with
  | [i] => option_map IZR (unsigned_int i)
  | [i; f] =>
      match NilEmpty.uint_of_string i, NilEmpty.uint_of_string f with
      | Some ui, Some uf =>
          if (String.length i + String.length f =? 0)%nat then None
          else
            let scale := (10 ^ Z.of_nat (String.length f))%Z in
            Some (IZR (Z.of_uint ui * scale + Z.of_uint uf) / IZR scale)
      | _, _ => None
      end
  | _ => None
  end.

Definition decimal_float (s : string) : option R :=
  signed unsigned_decimal Ropp (ascii_strip s).

Definition string_of_N (n : N) : string := NilZero.string_of_uint (N.to_uint n).

Definition pad4 (s : string) : string :=
  match String.length s with
  | 0%nat => "0000" ++ s
  | 1%nat => "000" ++ s
  | 2%nat => "00" ++ s
  | 3%nat => "0" ++ s
  | _ => s
  end.

Definition decimal_4f (x : R) : string :=
  let n := round_half_even (x * 10000) in
  let m := Z.abs_N n in
  (if (n <? 0)%Z then "-" else "") ++
  string_of_N (m / 10000) ++ "." ++ pad4 (string_of_N (m mod 10000)).

(** The builtins on ASCII text, with the power of exact arithmetic. *)
#[local] Instance decimal_builtins : Builtins := {
  py_int := decimal_int;
  py_float := decimal_float;
  format_4f := decimal_4f;
  strip := ascii_strip;
  lower := ascii_lower;
  py_pow := exact_pow
}.

(** The same, with the power cut to the range of a double. *)
Definition double_builtins : Builtins := {|
  py_int := decimal_int;
  py_float := decimal_float;
  format_4f := decimal_4f;
  strip := ascii_strip;
  lower := ascii_lower;
  py_pow := double_pow
|}.

(** ** Descriptions used by the further properties *)


(** The distinct elements of [ks], each at the place of its first
    occurrence. *)
Fixpoint first_seen (ks : list string) : list string :=
  match ks with
  | [] => []
  | k :: ks' => k :: filter (fun x => negb (String.eqb k x)) (first_seen ks')
  end.

(** A group exists once it has an element. *)
Definition nonempty {A : Type} (l : list A) : option (list A) :=
  match l with
  | [] => None
  | _ => Some l
  end.

(** The values of the items filed under [k], in order. *)
Definition items_of {V : Type} (k : string) (items : list (string * V)) : list V :=
  map snd (filter (fun it => String.eqb (fst it) k) items).

(** [d] is [items] grouped by key: keys in order of first occurrence, and
    under each key its values in order. *)
Definition grouped {V : Type} (d : dict (list V)) (items : list (string * V)) : Prop :=
  keys d = first_seen (map fst items)
  /\ forall k, dict_get d k = nonempty (items_of k items).

(** What a data line gives [calculate_minkowski_distances]: its country with
    its employee count and median salary, when the three cells are there
    and the two numbers parse. *)
Definition point_row {B : Builtins} (country_index employees_index median_salary_index : nat)
    (line : string) : option (string * (Z * R)) :=
  let row := parse_row line in
  match nth_error row country_index,
        nth_error row employees_index,
        nth_error row median_salary_index with
  | Some country, Some employees_cell, Some median_salary_cell =>
      match py_int employees_cell, py_float median_salary_cell with
      | Some employees, Some median_salary => Some (country, (employees, median_salary))
      | _, _ => None
      end
  | _, _, _ => None
  end.

(** The data lines of a table as [calculate_minkowski_distances] reads them. *)
Definition point_rows {B : Builtins} (lines : list string) : list (string * (Z * R)) :=
  match lines with
  | [] => []
  | first :: rest =>
      let header := parse_row first in
      match index_from "country" header 0,
            index_from "number of employees" header 0,
            index_from "median Salary" header 0 with
      | Some ci, Some ei, Some mi => choose (point_row ci ei mi) rest
      | _, _, _ => []
      end
  end.

(** What a row gives [calculate_category_data]: its lower-cased category,
    its organisation and the pair [[employees, percentage]], when the five
    cells are there, the three numbers parse and the employee count is
    positive.  The cells are read in the order of the program. *)
Definition category_entry {B : Builtins} (row : list string)
  : option (string * (string * entry)) :=
  match nth_error row 5 with
  | None => None
  | Some category_cell =>
  match nth_error row 0 with
  | None => None
  | Some org_id =>
  match nth_error row 6 with
  | None => None
  | Some employees_cell =>
  match py_int employees_cell with
  | None => None
  | Some employees =>
  match nth_error row 8 with
  | None => None
  | Some cell_2020 =>
  match py_float cell_2020 with
  | None => None
  | Some profit_2020 =>
  match nth_error row 9 with
  | None => None
  | Some cell_2021 =>
  match py_float cell_2021 with
  | None => None
  | Some profit_2021 =>
      if (employees <=? 0)%Z then None
      else
        let percentage :=
          format_4f (Rabs ((profit_2021 - profit_2020) / profit_2020 * 100)) in
        Some (lower category_cell, (org_id, mk_entry employees percentage []))
  end end end end end end end end.

(** [cd] is [items] grouped by category and, inside each category, by
    organisation. *)
Definition grouped_twice (cd : dict orgs) (items : list (string * (string * entry)))
  : Prop :=
  keys cd = first_seen (map fst items)
  /\ forall category,
       match dict_get cd category with
       | Some od => grouped od (items_of category items)
       | None => items_of category items = []
       end.

(** [main]: the file is read twice, and both readings give the same lines;
    [p] has its default value 3. *)
Definition main {B : Builtins} (lines : list string)
  : result (dict (R * R) * dict orgs) :=
  output1 <- combine_t_test_and_minkowski lines 3 ;;
  let data := map parse_row lines in
  category_data <- calculate_category_data data ;;
  let output2 := category_data in
  Ok (output1, output2).

(** ** Example tables *)

Definition newline : string := String "010"%char "".

(** Country "X" with employees 10, 20 and median salaries 100.0, 200.0. *)
Definition distance_example : list string :=
  [ "country,number of employees,median Salary" ++ newline;
    "X,10,100.0" ++ newline;
    "X,20,200.0" ++ newline ].

(** A table with one malformed profit cell in each period. *)
Definition profits_example : list string :=
  [ "country,profits in 2020(million),profits in 2021(million)" ++ newline;
    "Y,10,11" ++ newline;
    "Y,n/a,5" ++ newline;
    "Y,12,13" ++ newline;
    "Z,7,unknown" ++ newline ].


(** A table on which both engines succeed; "Z" has no valid profit row. *)
Definition combine_example : list string :=
  [ "country,number of employees,median Salary,profits in 2020(million),profits in 2021(million)" ++ newline;
    "Y,10,100,10,11" ++ newline;
    "Y,20,200,12,13" ++ newline;
    "Z,5,50,n/a,1" ++ newline ].

(** A row whose employee cell is not a number. *)
Definition malformed_row : list string :=
  ["C"; ""; ""; ""; ""; "Retail"; "many"; ""; "10"; "12"].

Definition retail_header : list string :=
  ["id"; "c1"; "c2"; "c3"; "c4"; "category"; "employees"; "c7"; "p2020"; "p2021"].

Definition retail_rows_before : list (list string) :=
  [ ["A"; ""; ""; ""; ""; "Retail"; "50"; ""; "10"; "12"] ].

Definition retail_rows_after : list (list string) :=
  [ ["B"; ""; ""; ""; ""; "retail"; "20"; ""; "4"; "5"];
    ["B"; ""; ""; ""; ""; "RETAIL"; "30"; ""; "5"; "4"] ].

(** Category "retail" with two organisations of 50 employees each, "A"
    met first; the second data row is malformed. *)
Definition retail_example : list (list string) :=
  retail_header :: retail_rows_before ++ malformed_row :: retail_rows_after.

(** What the ranking gives for it: "A" first, "B" second. *)
Definition retail_ranked : orgs :=
  [("A", [mk_entry 50 (format_4f (Rabs ((12 - 10) / 10 * 100))) [1%nat]]);
   ("B", [mk_entry 20 (format_4f (Rabs ((5 - 4) / 4 * 100))) [2%nat];
          mk_entry 30 (format_4f (Rabs ((4 - 5) / 5 * 100))) [2%nat]])].





(** The same with a sum that is rounded: "B", met first, has 2^53 employees,
    and "A" has 2^53 and 1 more on a second row. *)
Definition rounded_sum_example : list (list string) :=
  [ retail_header;
    ["B"; ""; ""; ""; ""; "retail"; "9007199254740992"; ""; "10"; "12"];
    ["A"; ""; ""; ""; ""; "retail"; "9007199254740992"; ""; "10"; "12"];
    ["A"; ""; ""; ""; ""; "retail"; "1"; ""; "10"; "12"] ].



(** A table with the ten columns that [calculate_category_data] reads by
    position, named as the other engines look them up; the employee cell of
    its second data line is not a number. *)
Definition strict_header : string :=
  "id,country,c2,c3,c4,category,number of employees,median Salary,profits in 2020(million),profits in 2021(million)".

Definition strict_example : list string :=
  [ strict_header ++ newline;
    "A,Y,,,,Retail,10,100,10,11" ++ newline;
    "B,Y,,,,Retail,many,200,12,13" ++ newline ].

(** A row with a positive employee count and a zero profit in 2020. *)
Definition zero_profit_row : list string :=
  ["D"; ""; ""; ""; ""; "Retail"; "5"; ""; "0"; "3"].

(** A table whose second data line has a malformed employee cell. *)
Definition malformed_example : list string :=
  [ "country,number of employees,median Salary" ++ newline;
    "X,10,100.0" ++ newline;
    "X,ten,200.0" ++ newline ].

(** A header without the "country" column. *)
Definition no_country_header : string :=
  "number of employees,median Salary,profits in 2020(million),profits in 2021(million)".

(** * Properties *)

(** Evaluation of the program on a concrete table, leaving the real numbers
    and the tests on them as they are, and the sort keys for the end. *)
Ltac run :=
  lazy -[IZR Rdiv Rplus Rmult Rminus Ropp Rinv Rabs Rpower Req_EM_T Rlt_dec
         Rle_dec Int_part frac_part sqrt pow round4 round_half_even decimal_4f
         sort_key].

(** The same, deciding the tests for zero that come up on the way. *)
Ltac run_rows :=
  repeat (run;
          match goal with
          | |- context [Req_EM_T ?a ?b] =>
              destruct (Req_EM_T a b) as [?|_]; [exfalso; lra|]
          end).

(** ** Loops and results *)

Lemma for_each_app {A S : Type} (xs ys : list A) (body : S -> A -> result S) (s : S) :
  for_each (xs ++ ys) body s = bind (for_each xs body s) (for_each ys body).
Proof.
  revert s; induction xs as [|x xs IH]; intros s; simpl; [reflexivity|].
  destruct (body s x); simpl; auto.
Qed.

Lemma for_each_raises {A S : Type} (P : exn -> Prop) (body : S -> A -> result S)
    (xs : list A) :
  (forall s x e, In x xs -> body s x = Raise e -> P e) ->
  forall s e, for_each xs body s = Raise e -> P e.
Proof.
  induction xs as [|x xs IH]; intros Hbody s e; simpl; [discriminate|].
  destruct (body s x) as [s'|e'] eqn:E.
  - apply IH. intros s0 x0 e0 Hin. apply Hbody. right; assumption.
  - intros [= <-]. apply (Hbody s x); [left; reflexivity | assumption].
Qed.

Lemma for_each_invariant {A S : Type} (P : S -> Prop) (body : S -> A -> result S)
    (xs : list A) :
  (forall s x s', P s -> body s x = Ok s' -> P s') ->
  forall s s', P s -> for_each xs body s = Ok s' -> P s'.
Proof.
  intros Hstep. induction xs as [|x xs IH]; intros s s' Hs; simpl.
  - intros [= <-]. assumption.
  - destruct (body s x) as [s1|] eqn:E; [|discriminate].
    apply IH. apply (Hstep s x); assumption.
Qed.

Lemma for_each_ext {A S : Type} (body1 body2 : S -> A -> result S) (xs : list A) :
  (forall s x, body1 s x = body2 s x) ->
  forall s, for_each xs body1 s = for_each xs body2 s.
Proof.
  intros H. induction xs as [|x xs IH]; intros s; [reflexivity|].
  cbn [for_each]. rewrite H. destruct (body2 s x); auto.
Qed.


Lemma for_each_must_raise {A S : Type} (e0 : exn) (body : S -> A -> result S)
    (xs : list A) (k : A) :
  (forall s x e, In x xs -> body s x = Raise e -> e = e0) ->
  In k xs -> (forall s, body s k = Raise e0) ->
  forall s, for_each xs body s = Raise e0.
Proof.
  intros Honly Hin Hk. induction xs as [|x xs IH]; intros s; [destruct Hin|].
  simpl. destruct (body s x) as [s'|e] eqn:E.
  - destruct Hin as [->|Hin]; [rewrite Hk in E; discriminate|].
    apply IH; [|assumption].
    intros s0 x0 e1 Hx0. apply Honly. right; assumption.
  - f_equal. apply (Honly s x); [left; reflexivity | assumption].
Qed.

Lemma list_comprehension_from {A C : Type} (f : A -> result C) (xs : list A) :
  forall acc ys,
  for_each xs (fun ys x => y <- f x ;; Ok (ys ++ [y])%list) acc = Ok ys ->
  exists zs, ys = (acc ++ zs)%list /\ Forall2 (fun x y => f x = Ok y) xs zs.
Proof.
  induction xs as [|x xs IH]; intros acc ys; simpl.
  - intros [= <-]. exists []. rewrite app_nil_r. split; [reflexivity | constructor].
  - destruct (f x) as [y|] eqn:E; cbn [bind]; [|discriminate].
    intros H. destruct (IH _ _ H) as (zs & -> & Hzs).
    exists (y :: zs). rewrite <- app_assoc. split; [reflexivity|].
    constructor; assumption.
Qed.

(** The list that a comprehension returns has the values of its expression,
    in order. *)
Lemma list_comprehension_ok {A C : Type} (f : A -> result C) (xs : list A) (ys : list C) :
  list_comprehension f xs = Ok ys -> Forall2 (fun x y => f x = Ok y) xs ys.
Proof.
  intros H. destruct (list_comprehension_from f xs [] ys H) as (zs & -> & Hzs).
  exact Hzs.
Qed.


Lemma list_comprehension_total {A C : Type} (f : A -> result C) (g : A -> C)
    (xs : list A) :
  (forall x, f x = Ok (g x)) -> list_comprehension f xs = Ok (map g xs).
Proof.
  intros H. unfold list_comprehension.
  assert (forall acc,
            for_each xs (fun ys x => y <- f x ;; Ok (ys ++ [y])%list) acc
            = Ok (acc ++ map g xs)%list) as Hall.
  { induction xs as [|x xs IH]; intros acc; simpl; [now rewrite app_nil_r|].
    rewrite H. cbn [bind]. rewrite IH, <- app_assoc. reflexivity. }
  apply Hall.
Qed.

(** ** The power *)

Lemma Rpower_positive (a e : R) : 0 < Rpower a e.
Proof. unfold Rpower. apply exp_pos. Qed.

Lemma exact_pow_positive (a e : R) : 0 < a -> e <> 0 -> exact_pow a e = Ok (Rpower a e).
Proof.
  intros Ha He. unfold exact_pow.
  destruct (Req_EM_T e 0); [contradiction|].
  destruct (Req_EM_T a 0); [lra|].
  destruct (Rlt_dec a 0); [lra | reflexivity].
Qed.

Lemma exact_pow_zero_exponent (a : R) : exact_pow a 0 = Ok 1.
Proof. unfold exact_pow. destruct (Req_EM_T 0 0); [reflexivity | contradiction]. Qed.

Lemma exact_pow_zero_positive (e : R) : 0 < e -> exact_pow 0 e = Ok 0.
Proof.
  intros He. unfold exact_pow.
  destruct (Req_EM_T e 0); [lra|].
  destruct (Req_EM_T 0 0); [|contradiction].
  destruct (Rlt_dec e 0); [lra | reflexivity].
Qed.

Lemma exact_pow_zero_negative (e : R) : e < 0 -> exact_pow 0 e = Raise ZeroDivisionError.
Proof.
  intros He. unfold exact_pow.
  destruct (Req_EM_T e 0); [lra|].
  destruct (Req_EM_T 0 0); [|contradiction].
  destruct (Rlt_dec e 0); [reflexivity | contradiction].
Qed.

Lemma exact_pow_one (a : R) : 0 <= a -> exact_pow a 1 = Ok a.
Proof.
  intros Ha. destruct (Req_dec a 0) as [->|N].
  - apply exact_pow_zero_positive. lra.
  - rewrite exact_pow_positive by lra. rewrite Rpower_1 by lra. reflexivity.
Qed.

Lemma two_is_an_even_integer : frac_part 2 = 0 /\ Int_part 2 = 2%Z.
Proof.
  destruct (Int_part_frac_part_spec 2 2 0) as [Hz Hf]; [lra | lra |].
  split; congruence.
Qed.

(** The power with exponent 2 is the square, also of a negative base. *)
Lemma exact_pow_square (a : R) : exact_pow a 2 = Ok (a ^ 2).
Proof.
  unfold exact_pow. destruct two_is_an_even_integer as [Hf Hz].
  destruct (Req_EM_T 2 0); [lra|].
  destruct (Req_EM_T a 0) as [->|N].
  - destruct (Rlt_dec 2 0); [lra|]. f_equal. lra.
  - assert (forall x, 0 < x -> Rpower x 2 = x ^ 2) as Hsq.
    { intros x Hx. replace 2 with (INR 2) by (simpl; lra). now apply Rpower_pow. }
    destruct (Rlt_dec a 0).
    + rewrite Hf, Hz. destruct (Req_EM_T 0 0); [|contradiction].
      cbn [Z.even]. rewrite Hsq by lra. f_equal. lra.
    + rewrite Hsq by lra. reflexivity.
Qed.

Lemma exact_pow_raises (a e : R) (x : exn) : exact_pow a e = Raise x -> arithmetic_exn x.
Proof.
  unfold exact_pow, arithmetic_exn.
  destruct (Req_EM_T e 0); [discriminate|].
  destruct (Req_EM_T a 0).
  - destruct (Rlt_dec e 0); [|discriminate]. intros [= <-]. auto.
  - destruct (Rlt_dec a 0); [|discriminate].
    destruct (Req_EM_T (frac_part e) 0); [discriminate|]. intros [= <-]. auto.
Qed.

(** A positive base raises nothing in exact arithmetic. *)
Lemma exact_pow_positive_base (a e : R) :
  0 < a -> exists r, exact_pow a e = Ok r /\ 0 <= r.
Proof.
  intros Ha. destruct (Req_dec e 0) as [->|N].
  - rewrite exact_pow_zero_exponent. exists 1. split; [reflexivity | lra].
  - rewrite exact_pow_positive by assumption.
    exists (Rpower a e). split; [reflexivity | apply Rlt_le, Rpower_positive].
Qed.

#[local] Instance exact_power_laws : PowerLaws decimal_builtins.
Proof.
  split; cbn [py_pow decimal_builtins].
  - apply exact_pow_zero_exponent.
  - apply exact_pow_zero_positive.
  - apply exact_pow_zero_negative.
  - apply exact_pow_one.
  - intros a e Ha. left. apply exact_pow_positive_base. assumption.
  - intros a. left. rewrite exact_pow_square. exists (a ^ 2).
    split; [reflexivity | apply pow2_ge_0].
  - apply exact_pow_raises.
Qed.

Lemma thresholds : 1 < overflow_threshold /\ 0 < underflow_threshold < 1.
Proof.
  unfold overflow_threshold, underflow_threshold.
  assert (1 < IZR (2 ^ 1075)) as H by (apply IZR_lt; reflexivity).
  split; [apply IZR_lt; reflexivity|]. split.
  - apply Rinv_0_lt_compat. lra.
  - rewrite <- Rinv_1. apply Rinv_lt_contravar; lra.
Qed.

(** The power of the range of a double, at an exponent other than 1. *)
Lemma double_pow_cut (a e : R) :
  e <> 1 ->
  double_pow a e
  = match exact_pow a e with
    | Ok r =>
        if Rle_dec overflow_threshold (Rabs r) then Raise OverflowError
        else if Rle_dec (Rabs r) underflow_threshold then Ok 0
        else Ok r
    | Raise x => Raise x
    end.
Proof.
  intros He. unfold double_pow. destruct (Req_EM_T e 1); [contradiction | reflexivity].
Qed.

(** Cutting a value that is not negative leaves a value that is not
    negative, or overflows. *)
Lemma double_pow_cut_nonneg (a e : R) :
  e <> 1 -> (exists r, exact_pow a e = Ok r /\ 0 <= r) ->
  (exists r, double_pow a e = Ok r /\ 0 <= r) \/ double_pow a e = Raise OverflowError.
Proof.
  intros He (r & Hr & Hr0). rewrite double_pow_cut, Hr by assumption.
  destruct (Rle_dec overflow_threshold (Rabs r)); [right; reflexivity|].
  left. destruct (Rle_dec (Rabs r) underflow_threshold).
  - exists 0. split; [reflexivity | lra].
  - exists r. auto.
Qed.

#[local] Instance double_power_laws : PowerLaws double_builtins.
Proof.
  destruct thresholds as (Hover & Hunder0 & Hunder1).
  split; cbn [py_pow double_builtins].
  - intros a. rewrite double_pow_cut, exact_pow_zero_exponent by lra.
    rewrite Rabs_R1.
    destruct (Rle_dec overflow_threshold 1); [lra|].
    destruct (Rle_dec 1 underflow_threshold); [lra | reflexivity].
  - intros e He. unfold double_pow. rewrite exact_pow_zero_positive by assumption.
    destruct (Req_EM_T e 1); [reflexivity|]. rewrite Rabs_R0.
    destruct (Rle_dec overflow_threshold 0); [lra|].
    destruct (Rle_dec 0 underflow_threshold); [reflexivity | lra].
  - intros e He. rewrite double_pow_cut, exact_pow_zero_negative by lra. reflexivity.
  - intros a Ha. unfold double_pow.
    destruct (Req_EM_T 1 1); [apply exact_pow_one; assumption | contradiction].
  - intros a e Ha. destruct (Req_dec e 1) as [->|N].
    + left. unfold double_pow. destruct (Req_EM_T 1 1); [|contradiction].
      apply exact_pow_positive_base. assumption.
    + apply double_pow_cut_nonneg; [assumption|].
      apply exact_pow_positive_base. assumption.
  - intros a. apply double_pow_cut_nonneg; [lra|].
    rewrite exact_pow_square. exists (a ^ 2). split; [reflexivity | apply pow2_ge_0].
  - intros a e x. unfold double_pow, arithmetic_exn.
    destruct (Req_EM_T e 1); [apply exact_pow_raises|].
    destruct (exact_pow a e) as [r|x'] eqn:E.
    + destruct (Rle_dec overflow_threshold (Rabs r)); [intros [= <-]; auto|].
      destruct (Rle_dec (Rabs r) underflow_threshold); discriminate.
    + intros [= <-]. apply (exact_pow_raises _ _ _ E).
Qed.

Lemma py_div_nonzero (a b : R) : b <> 0 -> py_div a b = Ok (a / b).
Proof.
  intros Hb. unfold py_div. destruct (Req_EM_T b 0); [contradiction | reflexivity].
Qed.

Lemma py_div_raises (a b : R) (x : exn) : py_div a b = Raise x -> arithmetic_exn x.
Proof.
  unfold py_div, arithmetic_exn. destruct (Req_EM_T b 0); [|discriminate].
  intros [= <-]. auto.
Qed.

Lemma py_div_raises_zero (a b : R) (x : exn) :
  py_div a b = Raise x -> x = ZeroDivisionError.
Proof.
  unfold py_div. destruct (Req_EM_T b 0); [|discriminate]. intros [= <-]. auto.
Qed.


Lemma py_div_int_ok (a : R) (n : Z) (q : R) :
  py_div_int a n = Ok q -> n <> 0%Z /\ q = a / IZR n.
Proof.
  unfold py_div_int. destruct (n =? 0)%Z eqn:E; [discriminate|].
  apply Z.eqb_neq in E. intros [= <-]. auto.
Qed.

Lemma py_div_int_nonzero (a : R) (n : Z) :
  n <> 0%Z -> py_div_int a n = Ok (a / IZR n).
Proof.
  intros Hn. unfold py_div_int. apply Z.eqb_neq in Hn. now rewrite Hn.
Qed.

Lemma fold_left_Rplus_nonneg (xs : list R) (acc : R) :
  Forall (fun x => 0 <= x) xs -> 0 <= acc -> 0 <= fold_left Rplus xs acc.
Proof.
  revert acc. induction xs as [|x xs IH]; intros acc Hxs Hacc; simpl; [assumption|].
  inversion Hxs; subst. apply IH; [assumption | lra].
Qed.


(** ** [minkowski_distance] *)

Section Minkowski.

Context {B : Builtins} {L : PowerLaws B}.



Lemma minkowski_term_shift (a b : R) (x1 x2 : list R) (p : R) (n k : nat) (acc : R) :
  for_each (seq (S k) n) (minkowski_term (a :: x1) (b :: x2) p) acc
  = for_each (seq k n) (minkowski_term x1 x2 p) acc.
Proof.
  revert k acc; induction n as [|n IH]; intros k acc; simpl; [reflexivity|].
  unfold minkowski_term at 1 3; simpl.
  destruct (py_pow (Rabs (nth k x1 0 - nth k x2 0)) p); simpl; auto.
Qed.





(** C2: sequences of different lengths make [minkowski_distance] raise the
    [ValueError] of the dimension check, whatever the exponent; there is no
    result. *)
Theorem minkowski_distance_length_mismatch (x1 x2 : list R) (p : R) :
  List.length x1 <> List.length x2 ->
  minkowski_distance x1 x2 p = Raise (ValueError dimension_msg).
Proof.
  intros Hlen. unfold minkowski_distance.
  apply Nat.eqb_neq in Hlen. rewrite Hlen. reflexivity.
Qed.

Lemma minkowski_distance_raises (x1 x2 : list R) (p : R) (e : exn) :
  List.length x1 = List.length x2 ->
  minkowski_distance x1 x2 p = Raise e -> arithmetic_exn e.
Proof.
  intros Hlen. unfold minkowski_distance. rewrite Hlen, Nat.eqb_refl. simpl.
  destruct (for_each _ _ _) as [d|e'] eqn:E; simpl.
  - destruct (py_div 1 p) as [q|e'] eqn:D; simpl.
    + apply pow_raises.
    + intros [= <-]. apply (py_div_raises _ _ _ D).
  - intros [= <-]. revert E. apply for_each_raises.
    intros s i e0 _. unfold minkowski_term.
    destruct (py_pow _ _) eqn:Pw; simpl; [discriminate|].
    intros [= <-]. apply (pow_raises _ _ _ Pw).
Qed.


(** X2: the distance does not depend on the order of its two arguments,
    errors included. *)
Theorem minkowski_distance_symmetric (x1 x2 : list R) (p : R) :
  minkowski_distance x1 x2 p = minkowski_distance x2 x1 p.
Proof.
  unfold minkowski_distance. rewrite (Nat.eqb_sym (List.length x2)).
  destruct (List.length x1 =? List.length x2)%nat eqn:E; [|reflexivity].
  apply Nat.eqb_eq in E. cbn [negb]. rewrite <- E.
  rewrite (for_each_ext (minkowski_term x2 x1 p) (minkowski_term x1 x2 p));
    [reflexivity|].
  intros acc i. unfold minkowski_term. now rewrite Rabs_minus_sym.
Qed.



End Minkowski.

(** The exact power meets neither restriction of the amended claim: in
    exact arithmetic a distance is returned, and it is 0 for equal
    sequences only. *)
Lemma exact_pow_positive_exponent (a e : R) :
  0 <= a -> 0 < e ->
  exists t, exact_pow a e = Ok t /\ 0 <= t /\ (t = 0 <-> a = 0).
Proof.
  intros Ha He. unfold exact_pow.
  destruct (Req_EM_T e 0) as [E|_]; [lra|].
  destruct (Req_EM_T a 0) as [A0|A0].
  - destruct (Rlt_dec e 0); [lra|]. exists 0. repeat split; auto; lra.
  - destruct (Rlt_dec a 0); [lra|].
    exists (Rpower a e). pose proof (exp_pos (e * ln a)) as P.
    unfold Rpower. repeat split; try lra.
Qed.

Lemma exact_sum (p : R) (x1 : list R) :
  0 < p ->
  forall (x2 : list R) (acc : R),
  List.length x1 = List.length x2 ->
  exists d, for_each (seq 0 (List.length x1)) (minkowski_term x1 x2 p) acc = Ok (acc + d)
            /\ 0 <= d /\ (d = 0 <-> x1 = x2).
Proof.
  intros Hp. induction x1 as [|a x1 IH]; intros [|b x2] acc Hlen; try discriminate.
  - exists 0. simpl. repeat split; auto; try lra. f_equal; lra.
  - simpl in Hlen. injection Hlen as Hlen. cbn [List.length seq for_each].
    unfold minkowski_term at 1. cbn [nth py_pow decimal_builtins].
    destruct (exact_pow_positive_exponent (Rabs (a - b)) p (Rabs_pos _) Hp)
      as (t & -> & Ht & Hz). cbn [bind].
    rewrite minkowski_term_shift.
    destruct (IH x2 (acc + t) Hlen) as (d & -> & Hd & Hdz).
    exists (t + d). split; [f_equal; lra|]. split; [lra|]. split.
    + intros E. assert (t = 0) by lra. assert (d = 0) by lra.
      f_equal; [|tauto].
      assert (Rabs (a - b) = 0) as Hab by tauto.
      destruct (Req_dec (a - b) 0) as [|N]; [lra|].
      apply Rabs_no_R0 in N. contradiction.
    + intros E. injection E as -> ->.
      assert (t = 0) by (apply Hz; rewrite Rminus_diag; apply Rabs_R0).
      assert (d = 0) by tauto. lra.
Qed.

Lemma exact_distance (x1 x2 : list R) (p : R) :
  List.length x1 = List.length x2 -> 0 < p ->
  exists d, minkowski_distance x1 x2 p = Ok d /\ 0 <= d /\ (d = 0 <-> x1 = x2).
Proof.
  intros Hlen Hp. unfold minkowski_distance.
  rewrite Hlen, Nat.eqb_refl. cbn [negb]. rewrite <- Hlen.
  destruct (exact_sum p x1 Hp x2 0 Hlen) as (d & -> & Hd & Hdz). cbn [bind].
  rewrite py_div_nonzero by lra. cbn [bind py_pow decimal_builtins].
  assert (0 < 1 / p) as Hinv by (apply Rdiv_lt_0_compat; lra).
  destruct (exact_pow_positive_exponent (0 + d) (1 / p)) as (r & -> & Hr & Hrz);
    [lra | assumption |].
  exists r. repeat split; auto.
  - intros E. apply Hdz. apply Hrz in E. lra.
  - intros E. apply Hrz. apply Hdz in E. lra.
Qed.




(** Nor is a distance always returned: the square of 10^200 overflows. *)
Lemma minkowski_distance_overflow :
  @minkowski_distance double_builtins [1e200] [0] 2 = Raise OverflowError.
Proof.
  unfold minkowski_distance. cbn [List.length Nat.eqb negb seq for_each].
  unfold minkowski_term. cbn [nth py_pow double_builtins].
  replace (Rabs (1e200 - 0)) with 1e200 by (rewrite Rabs_pos_eq; lra).
  rewrite double_pow_cut, exact_pow_square by lra.
  destruct (Rle_dec overflow_threshold (Rabs (1e200 ^ 2))) as [_|H]; [reflexivity|].
  exfalso. apply H. rewrite Rabs_pos_eq by (apply pow_le; lra).
  unfold overflow_threshold. replace 1e200 with (IZR (10 ^ 200)) by lra.
  rewrite pow_IZR. apply IZR_le. vm_compute. discriminate.
Qed.

Lemma minkowski_distance_length_mismatch_witness :
  List.length [1; 2] <> List.length [1]
  /\ minkowski_distance [1; 2] [1] 3 = Raise (ValueError dimension_msg).
Proof.
  assert (List.length [1; 2] <> List.length [1]) as H by (simpl; lia).
  split; [exact H | exact (minkowski_distance_length_mismatch [1; 2] [1] 3 H)].
Defined.

(** ** [calculate_minkowski_distances] *)

Section Distances.

Context {B : Builtins} {L : PowerLaws B}.

Lemma feature_vectors_length (pts : points) :
  List.length (feature_x1 pts) = List.length (feature_x2 pts).
Proof. unfold feature_x1, feature_x2. now rewrite !length_map. Qed.

(** C10: once the table has been parsed, the two vectors handed to
    [minkowski_distance] for a group have the same length, and the call
    never ends in the [ValueError] of the dimension check. *)
Theorem distances_never_dimension_mismatch (lines : list string)
    (country_data : dict points) :
  country_points lines = Ok country_data ->
  Forall (fun item => List.length (feature_x1 (snd item))
                      = List.length (feature_x2 (snd item))) country_data
  /\ forall p, calculate_minkowski_distances lines p
               <> Raise (ValueError dimension_msg).
Proof.
  intros Hparse. split.
  - apply Forall_forall. intros item _. apply feature_vectors_length.
  - intros p Hraise. unfold calculate_minkowski_distances in Hraise.
    rewrite Hparse in Hraise. simpl in Hraise.
    apply (for_each_raises arithmetic_exn) in Hraise.
    + destruct Hraise as [H|[H|H]]; discriminate.
    + intros s [country pts] e _. unfold add_distance.
      destruct (minkowski_distance _ _ _) eqn:M; simpl; [discriminate|].
      intros [= <-].
      apply (minkowski_distance_raises _ _ _ _ (feature_vectors_length pts) M).
Qed.

End Distances.

Lemma distance_example_points :
  country_points distance_example = Ok [("X", [(10%Z, 100); (20%Z, 200)])].
Proof.
  run.
  replace (1000 / 10) with 100 by lra.
  replace (2000 / 10) with 200 by lra.
  reflexivity.
Qed.

Lemma distances_never_dimension_mismatch_witness :
  country_points distance_example = Ok [("X", [(10%Z, 100); (20%Z, 200)])]
  /\ Forall (fun item => List.length (feature_x1 (snd item))
                      = List.length (feature_x2 (snd item)))
         [("X", [(10%Z, 100); (20%Z, 200)])]
  /\ forall p, calculate_minkowski_distances distance_example p
               <> Raise (ValueError dimension_msg).
Proof.
  split; [exact distance_example_points|].
  exact (distances_never_dimension_mismatch distance_example _ distance_example_points).
Defined.

(** *** The worked example *)

Lemma round_half_even_below (x : R) (z : Z) :
  IZR z <= x < IZR z + 1 / 2 -> round_half_even x = z.
Proof.
  intros [H1 H2]. unfold round_half_even.
  destruct (Int_part_frac_part_spec x z (x - IZR z)) as [Hz Hf]; [lra | lra |].
  rewrite <- Hz, <- Hf.
  destruct (Rlt_dec (x - IZR z) (1 / 2)); [reflexivity | lra].
Qed.

Lemma root_power (a : R) (n : nat) :
  0 < a -> (0 < n)%nat -> Rpower (a ^ n) (1 / INR n) = a.
Proof.
  intros Ha Hn.
  assert (0 < INR n) as Hn' by (apply lt_0_INR; assumption).
  rewrite <- Rpower_pow by assumption. rewrite Rpower_mult.
  replace (INR n * (1 / INR n)) with 1 by (field; lra).
  apply Rpower_1; assumption.
Qed.

Lemma root_lower (a s : R) (n : nat) :
  0 < a -> (0 < n)%nat -> a ^ n <= s -> a <= Rpower s (1 / INR n).
Proof.
  intros Ha Hn Hs.
  assert (0 < INR n) as Hn' by (apply lt_0_INR; assumption).
  assert (0 < a ^ n) as Hpow by (apply pow_lt; assumption).
  rewrite <- (root_power a n Ha Hn) at 1.
  apply Rle_Rpower_l; [|lra].
  apply Rlt_le. apply Rdiv_lt_0_compat; lra.
Qed.

Lemma root_upper (a s : R) (n : nat) :
  0 < s -> (0 < n)%nat -> s < a ^ n -> 0 < a -> Rpower s (1 / INR n) < a.
Proof.
  intros Hs Hn Hlt Ha.
  assert (0 < INR n) as Hn' by (apply lt_0_INR; assumption).
  rewrite <- (root_power a n Ha Hn) at 1.
  apply Rlt_Rpower_l; [|lra].
  apply Rdiv_lt_0_compat; lra.
Qed.

Lemma distance_example_root : round4 (Rpower 6561000 (1 / 3)) = 187.2075.
Proof.
  unfold round4.
  rewrite (round_half_even_below _ 1872075); [lra|].
  replace 3 with (INR 3) by (simpl; lra).
  assert (187.2075 <= Rpower 6561000 (1 / INR 3))
    by (apply (root_lower 187.2075 6561000 3); [lra | lia | lra]).
  assert (Rpower 6561000 (1 / INR 3) < 187.20755)
    by (apply (root_upper 187.20755 6561000 3); [lra | lia | lra | lra]).
  lra.
Qed.

Lemma distance_example_distance :
  minkowski_distance [10; 20] [100; 200] 3
  = Ok (Rpower (Rabs (10 - 100) ^ 3 + Rabs (20 - 200) ^ 3) (1 / 3)).
Proof.
  replace (Rabs (10 - 100) ^ 3 + Rabs (20 - 200) ^ 3) with 6561000
    by (unfold Rabs; repeat destruct (Rcase_abs _); lra).
  unfold minkowski_distance. cbn [List.length Nat.eqb negb seq for_each].
  unfold minkowski_term. cbn [nth py_pow decimal_builtins].
  replace (Rabs (10 - 100)) with 90 by (unfold Rabs; destruct (Rcase_abs _); lra).
  replace (Rabs (20 - 200)) with 180 by (unfold Rabs; destruct (Rcase_abs _); lra).
  rewrite !exact_pow_positive by lra. cbn [bind].
  rewrite py_div_nonzero by lra. cbn [bind].
  replace 3 with (INR 3) at 1 2 by (simpl; lra).
  rewrite !Rpower_pow by lra.
  replace (0 + 90 ^ 3 + 180 ^ 3) with 6561000 by lra.
  apply exact_pow_positive; lra.
Qed.

Lemma distance_example_result :
  calculate_minkowski_distances distance_example 3
  = Ok [("X", round4 (Rpower (Rabs (10 - 100) ^ 3 + Rabs (20 - 200) ^ 3) (1 / 3)))].
Proof.
  unfold calculate_minkowski_distances. rewrite distance_example_points.
  simpl. rewrite distance_example_distance. reflexivity.
Qed.

Lemma distance_example_rounded :
  round4 (Rpower (Rabs (10 - 100) ^ 3 + Rabs (20 - 200) ^ 3) (1 / 3)) = 187.2075.
Proof.
  replace (Rabs (10 - 100) ^ 3 + Rabs (20 - 200) ^ 3) with 6561000
    by (unfold Rabs; repeat destruct (Rcase_abs _); lra).
  apply distance_example_root.
Qed.

(** C8, as amended: on the example table (country "X", employees 10 and 20,
    median salaries 100.0 and 200.0, p = 3) the result maps "X" to
    (|10-100|^3 + |20-200|^3)^(1/3) rounded to 4 decimals, which is
    187.2075. *)
Theorem distance_example_value :
  calculate_minkowski_distances distance_example 3
  = Ok [("X", round4 (Rpower (Rabs (10 - 100) ^ 3 + Rabs (20 - 200) ^ 3) (1 / 3)))]
  /\ round4 (Rpower (Rabs (10 - 100) ^ 3 + Rabs (20 - 200) ^ 3) (1 / 3)) = 187.2075.
Proof.
  split; [apply distance_example_result | apply distance_example_rounded].
Qed.

(** C8, as stated, fails: the value the example table gives for "X" is not
    180.95, nor within 1 of it. *)
Lemma distance_example_not_180_95 :
  ~ (exists v, calculate_minkowski_distances distance_example 3 = Ok [("X", v)]
               /\ Rabs (v - 180.95) < 1).
Proof.
  intros (v & Hv & Hclose).
  rewrite distance_example_result in Hv.
  assert (v = 187.2075) as ->.
  { rewrite <- distance_example_rounded. congruence. }
  unfold Rabs in Hclose. destruct (Rcase_abs _); lra.
Qed.


(** ** Dictionaries *)

Lemma dict_get_set {V : Type} (d : dict V) (k k' : string) (v : V) :
  dict_get (dict_set d k v) k' = if String.eqb k k' then Some v else dict_get d k'.
Proof.
  induction d as [|[k0 v0] d IH]; simpl.
  - reflexivity.
  - destruct (String.eqb k0 k) eqn:E; simpl.
    + apply String.eqb_eq in E. subst k0. destruct (String.eqb k k'); reflexivity.
    + rewrite IH. destruct (String.eqb k0 k') eqn:E'; [|reflexivity].
      apply String.eqb_eq in E'. subst k0. rewrite String.eqb_sym, E. reflexivity.
Qed.

Lemma keys_set {V : Type} (d : dict V) (k : string) (v : V) :
  keys (dict_set d k v) = if dict_mem d k then keys d else (keys d ++ [k])%list.
Proof.
  unfold dict_mem, keys. induction d as [|[k0 v0] d IH]; simpl.
  - reflexivity.
  - destruct (String.eqb k0 k) eqn:E; simpl; [reflexivity|].
    rewrite IH. destruct (dict_get d k); reflexivity.
Qed.

Lemma dict_get_in_keys {V : Type} (d : dict V) (k : string) :
  In k (keys d) <-> dict_get d k <> None.
Proof.
  unfold keys. induction d as [|[k0 v0] d IH]; simpl.
  - split; [tauto | congruence].
  - destruct (String.eqb k0 k) eqn:E.
    + apply String.eqb_eq in E. split; [discriminate | auto].
    + apply String.eqb_neq in E. rewrite <- IH. split; [intros [|]; tauto | auto].
Qed.

Section Lockstep.
Context {B : Builtins}.

(** [setdefault] then [append]: the list under [k] grows by [x], a new key
    goes last. *)
Lemma append_after_setdefault {V : Type} (d : dict (list V)) (k : string) (x : V) :
  exists d', dict_append (setdefault d k []) k x = Ok d'
    /\ keys d' = (if dict_mem d k then keys d else (keys d ++ [k])%list)
    /\ forall k', dict_get d' k' =
         if String.eqb k k'
         then Some (match dict_get d k with Some l => l ++ [x] | None => [x] end)%list
         else dict_get d k'.
Proof.
  unfold dict_append, setdefault, dict_item, dict_mem.
  destruct (dict_get d k) as [l|] eqn:G.
  - rewrite G. simpl. eexists. split; [reflexivity|]. split.
    + rewrite keys_set. unfold dict_mem. rewrite G. reflexivity.
    + intros k'. rewrite dict_get_set. reflexivity.
  - rewrite dict_get_set, String.eqb_refl. simpl. eexists. split; [reflexivity|]. split.
    + rewrite !keys_set. unfold dict_mem. rewrite dict_get_set, String.eqb_refl, G.
      reflexivity.
    + intros k'. rewrite !dict_get_set. destruct (String.eqb k k'); reflexivity.
Qed.

Lemma rows_of_app (c : string) (xs ys : list (string * (R * R))) :
  rows_of c (xs ++ ys) = (rows_of c xs ++ rows_of c ys)%list.
Proof. unfold rows_of. now rewrite filter_app, map_app. Qed.

Lemma group_values_snoc (d : option (list R)) (l : list R) (x : R) :
  d = group_values l ->
  Some (match d with Some l' => l' ++ [x] | None => [x] end)%list
  = group_values (l ++ [x]).
Proof.
  intros ->. destruct l as [|y l]; simpl; reflexivity.
Qed.

Lemma group_values_mem (d : dict (list R)) (k : string) (l : list R) :
  dict_get d k = group_values l -> dict_mem d k = negb (match l with [] => true | _ => false end).
Proof.
  unfold dict_mem. intros ->. destruct l; reflexivity.
Qed.

Lemma add_profits_lockstep (header : list string) (ci i20 i21 : nat)
    (st st' : dict (list R) * dict (list R)) (line : string)
    (rows : list (string * (R * R))) :
  index_from "country" header 0 = Some ci ->
  lockstep st rows ->
  add_profits header i20 i21 st line = Ok st' ->
  lockstep st' (rows ++ choose (paired_row ci i20 i21) [line]).
Proof.
  intros Hci [Hkeys Hget]. destruct st as [d20 d21]. simpl in Hkeys, Hget.
  unfold add_profits, list_index. rewrite Hci. simpl.
  unfold paired_row, py_index, try_profits, py_index. cbn [choose].
  destruct (nth_error (parse_row line) ci) as [country|]; simpl; [|discriminate].
  destruct (nth_error (parse_row line) i20) as [c20|]; simpl; [|discriminate].
  destruct (py_float c20) as [a|]; simpl.
  2:{ intros [= <-].
      destruct (nth_error (parse_row line) i21); rewrite app_nil_r; split; auto. }
  destruct (nth_error (parse_row line) i21) as [c21|]; simpl; [|discriminate].
  destruct (py_float c21) as [b|]; simpl.
  2:{ intros [= <-]. rewrite app_nil_r. split; auto. }
  destruct (append_after_setdefault d20 country a) as (e20 & -> & K20 & G20).
  destruct (append_after_setdefault d21 country b) as (e21 & -> & K21 & G21).
  simpl. intros [= <-]. split; simpl.
  - rewrite K20, K21.
    destruct (Hget country) as [H20 H21].
    rewrite (group_values_mem _ _ _ H20), (group_values_mem _ _ _ H21).
    rewrite Hkeys.
    destruct (rows_of country rows); reflexivity.
  - intros c. rewrite G20, G21, !rows_of_app.
    unfold rows_of at 2 4. simpl.
    destruct (String.eqb country c) eqn:E; simpl.
    + apply String.eqb_eq in E. subst c. rewrite !map_app. simpl.
      destruct (Hget country) as [H20 H21]. split; apply group_values_snoc; assumption.
    + rewrite !app_nil_r. apply Hget.
Qed.

Lemma for_each_lockstep (header : list string) (ci i20 i21 : nat) (rest : list string) :
  index_from "country" header 0 = Some ci ->
  forall st st' rows,
  lockstep st rows ->
  for_each rest (add_profits header i20 i21) st = Ok st' ->
  lockstep st' (rows ++ choose (paired_row ci i20 i21) rest).
Proof.
  intros Hci. induction rest as [|line rest IH]; intros st st' rows Hinv; simpl.
  - intros [= <-]. now rewrite app_nil_r.
  - destruct (add_profits header i20 i21 st line) as [st1|] eqn:E; [|discriminate].
    intros Hrest.
    pose proof (add_profits_lockstep _ _ _ _ _ _ _ _ Hci Hinv E) as Hinv1.
    specialize (IH _ _ _ Hinv1 Hrest).
    simpl in Hinv1, IH.
    destruct (paired_row ci i20 i21 line); simpl in *.
    + rewrite <- app_assoc in IH. exact IH.
    + rewrite app_nil_r in IH. exact IH.
Qed.

Lemma collect_profits_lockstep (lines : list string)
    (st : dict (list R) * dict (list R)) :
  collect_profits lines = Ok st -> lockstep st (paired_rows lines).
Proof.
  unfold collect_profits, py_index, paired_rows, list_index.
  destruct lines as [|first rest]; simpl; [discriminate|].
  destruct (index_from "profits in 2020(million)" (parse_row first) 0) as [i20|];
    simpl; [|discriminate].
  destruct (index_from "profits in 2021(million)" (parse_row first) 0) as [i21|];
    simpl; [|discriminate].
  destruct (index_from "country" (parse_row first) 0) as [ci|] eqn:Hci.
  - intros Hloop.
    apply (for_each_lockstep _ ci _ _ _ Hci _ _ [] ) in Hloop; [exact Hloop|].
    split; simpl; auto.
  - destruct rest as [|line rest]; simpl.
    + intros [= <-]. split; simpl; auto.
    + unfold add_profits at 1, list_index. rewrite Hci. simpl. discriminate.
Qed.

(** C4: when the table has been read, the two collections have the same
    keys, and for every country the period-A and the period-B sequence are
    the first and the second values of the same rows, namely the rows of
    that country whose two profit cells both parse, in row order; so they
    have equal lengths and position i of both comes from one source row. *)
Theorem collect_profits_row_synchronized (lines : list string)
    (profits_2020 profits_2021 : dict (list R)) :
  collect_profits lines = Ok (profits_2020, profits_2021) ->
  keys profits_2020 = keys profits_2021
  /\ forall country,
       let rows := rows_of country (paired_rows lines) in
       dict_get profits_2020 country = group_values (map fst rows)
       /\ dict_get profits_2021 country = group_values (map snd rows)
       /\ List.length (map fst rows) = List.length (map snd rows).
Proof.
  intros H. apply collect_profits_lockstep in H. destruct H as [Hkeys Hget].
  split; [exact Hkeys|]. intros country rows.
  destruct (Hget country) as [H20 H21].
  repeat split; try assumption. now rewrite !length_map.
Qed.

End Lockstep.

Lemma profits_example_collected :
  collect_profits profits_example
  = Ok ([("Y", [10; 12])], [("Y", [11; 13])]).
Proof. run. reflexivity. Qed.

Lemma collect_profits_row_synchronized_witness :
  collect_profits profits_example = Ok ([("Y", [10; 12])], [("Y", [11; 13])])
  /\ keys [("Y", [10; 12])] = keys [("Y", [11; 13])]
  /\ forall country,
       let rows := rows_of country (paired_rows profits_example) in
       dict_get [("Y", [10; 12])] country = group_values (map fst rows)
       /\ dict_get [("Y", [11; 13])] country = group_values (map snd rows)
       /\ List.length (map fst rows) = List.length (map snd rows).
Proof.
  split; [exact profits_example_collected|].
  exact (collect_profits_row_synchronized profits_example _ _ profits_example_collected).
Defined.

(** ** [calculate_t_test] *)


Section TTest.

Context {B : Builtins} {L : PowerLaws B}.










(** A group for which a statistic is computed has two values or more in
    each period. *)
Lemma t_statistic_sample_sizes (v20 v21 : list R) (t : R) :
  t_statistic v20 v21 = Ok t ->
  (2 <= List.length v20)%nat /\ (2 <= List.length v21)%nat.
Proof.
  unfold t_statistic.
  destruct (py_div_int (py_sum v20) _) as [m20|] eqn:E1; cbn [bind]; [|discriminate].
  destruct (py_div_int (py_sum v21) _) as [m21|] eqn:E2; cbn [bind]; [|discriminate].
  apply py_div_int_ok in E1, E2. destruct E1 as [N1 _], E2 as [N2 _].
  destruct (sum_sq_dev v20 m20) as [s20|]; cbn [bind]; [|discriminate].
  destruct (py_div_int s20 _) as [var20|] eqn:E3; cbn [bind]; [|discriminate].
  apply py_div_int_ok in E3. destruct E3 as [N3 _].
  destruct (py_pow var20 0.5); cbn [bind]; [|discriminate].
  destruct (sum_sq_dev v21 m21) as [s21|]; cbn [bind]; [|discriminate].
  destruct (py_div_int s21 _) as [var21|] eqn:E4; cbn [bind]; [|discriminate].
  apply py_div_int_ok in E4. destruct E4 as [N4 _].
  intros _. lia.
Qed.



End TTest.






(** ** [combine_t_test_and_minkowski] *)

Lemma dict_mem_in_keys {V : Type} (d : dict V) (k : string) :
  dict_mem d k = true <-> In k (keys d).
Proof.
  rewrite dict_get_in_keys. unfold dict_mem.
  destruct (dict_get d k); split; congruence.
Qed.

Lemma dict_set_nodup {V : Type} (d : dict V) (k : string) (v : V) :
  NoDup (keys d) -> NoDup (keys (dict_set d k v)).
Proof.
  intros Hd. rewrite keys_set. destruct (dict_mem d k) eqn:M; [assumption|].
  apply NoDup_app; [assumption | repeat constructor; intros [] |].
  intros x Hx [<-|[]]. apply dict_mem_in_keys in Hx. congruence.
Qed.

Section Combine.

Context {B : Builtins}.

Lemma t_test_keys_nodup (lines : list string) (t : dict R) :
  calculate_t_test lines = Ok t -> NoDup (keys t).
Proof.
  unfold calculate_t_test.
  destruct (collect_profits lines) as [[p20 p21]|]; cbn [bind]; [|discriminate].
  apply (for_each_invariant (fun s => NoDup (keys s))); [|constructor].
  intros s k s' Hs. unfold add_score.
  destruct (dict_item p20 k); cbn [bind]; [|discriminate].
  destruct (dict_item p21 k); cbn [bind]; [|discriminate].
  destruct (t_statistic _ _); cbn [bind]; [|discriminate].
  intros [= <-]. apply dict_set_nodup. assumption.
Qed.

Lemma combine_loop (t m : dict R) (ks : list string) :
  NoDup ks ->
  (forall k, In k ks -> In k (keys t)) ->
  forall c0,
  (forall k, In k ks -> ~ In k (keys c0)) ->
  exists c, for_each ks (add_combined t m) c0 = Ok c
    /\ keys c = (keys c0 ++ filter (dict_mem m) ks)%list
    /\ forall k, dict_get c k = if in_dec string_dec k ks then joined t m k
                                else dict_get c0 k.
Proof.
  induction ks as [|k0 ks IH]; intros Hnd Ht c0 Hfresh.
  - exists c0. simpl. rewrite app_nil_r. auto.
  - inversion Hnd as [|? ? Hk0 Hnd']; subst.
    assert (dict_get c0 k0 = None) as Hc0.
    { destruct (dict_get c0 k0) eqn:G; [|reflexivity].
      exfalso. apply (Hfresh k0); [left; reflexivity|].
      apply dict_get_in_keys. congruence. }
    cbn [for_each filter]. unfold add_combined at 1.
    destruct (dict_mem m k0) eqn:M.
    + assert (In k0 (keys t)) as Hin by (apply Ht; left; reflexivity).
      apply dict_get_in_keys in Hin. unfold dict_item.
      destruct (dict_get t k0) as [tv|] eqn:Gt; [|congruence].
      pose proof M as Gm. unfold dict_mem in Gm.
      destruct (dict_get m k0) as [mv|] eqn:Gm'; [|discriminate].
      cbn [bind].
      destruct (IH Hnd' (fun k H => Ht k (or_intror H)) (dict_set c0 k0 (tv, mv)))
        as (c & Hc & Hkeys & Hget).
      { intros k Hk. rewrite keys_set. unfold dict_mem. rewrite Hc0.
        intros Hin'. apply in_app_or in Hin'. destruct Hin' as [Hin'|[<-|[]]].
        - apply (Hfresh k); [right; assumption | assumption].
        - contradiction. }
      exists c. split; [exact Hc|]. split.
      * rewrite Hkeys, keys_set. unfold dict_mem. rewrite Hc0.
        rewrite <- app_assoc. reflexivity.
      * intros k. rewrite Hget, dict_get_set.
        destruct (in_dec string_dec k ks) as [I|I];
          destruct (in_dec string_dec k (k0 :: ks)) as [J|J]; try reflexivity.
        -- exfalso. apply J. right; assumption.
        -- destruct J as [<-|J]; [|contradiction].
           rewrite String.eqb_refl. unfold joined. rewrite Gt, Gm'. reflexivity.
        -- destruct (String.eqb k0 k) eqn:E; [|reflexivity].
           apply String.eqb_eq in E. exfalso. apply J. left; assumption.
    + destruct (IH Hnd' (fun k H => Ht k (or_intror H)) c0) as (c & Hc & Hkeys & Hget).
      { intros k Hk. apply Hfresh. right; assumption. }
      exists c. split; [exact Hc|]. split; [exact Hkeys|].
      intros k. rewrite Hget.
      destruct (in_dec string_dec k ks) as [I|I];
        destruct (in_dec string_dec k (k0 :: ks)) as [J|J]; try reflexivity.
      * exfalso. apply J. right; assumption.
      * destruct J as [<-|J]; [|contradiction].
        rewrite Hc0. unfold joined. unfold dict_mem in M.
        destruct (dict_get m k0); [discriminate|].
        destruct (dict_get t k0); reflexivity.
Qed.

(** C5: when both engines succeed, the combined result exists; its keys are
    the keys of the t-test result that the distance result also has, in the
    t-test result's order, that is, the intersection of the two key sets;
    a shared key maps to the pair (t statistic, distance) and any other key
    has no entry. *)
Theorem combine_inner_join (lines : list string) (p : R) (t m : dict R) :
  calculate_t_test lines = Ok t ->
  calculate_minkowski_distances lines p = Ok m ->
  exists c, combine_t_test_and_minkowski lines p = Ok c
    /\ keys c = filter (dict_mem m) (keys t)
    /\ (forall k, In k (keys c) <-> In k (keys t) /\ In k (keys m))
    /\ (forall k, dict_get c k =
                  match dict_get t k, dict_get m k with
                  | Some tv, Some mv => Some (tv, mv)
                  | _, _ => None
                  end).
Proof.
  intros Ht Hm. unfold combine_t_test_and_minkowski. rewrite Ht, Hm. cbn [bind].
  destruct (combine_loop t m (keys t) (t_test_keys_nodup _ _ Ht) (fun k H => H) [])
    as (c & Hc & Hkeys & Hget); [intros k _ []|].
  simpl in Hkeys. exists c. split; [exact Hc|]. split; [exact Hkeys|]. split.
  - intros k. rewrite Hkeys, filter_In, dict_mem_in_keys. reflexivity.
  - intros k. rewrite Hget. unfold joined.
    destruct (in_dec string_dec k (keys t)) as [I|I]; [reflexivity|].
    simpl. rewrite dict_get_in_keys in I.
    destruct (dict_get t k); [exfalso; apply I; discriminate | reflexivity].
Qed.

End Combine.

(** *** A table on which both engines succeed

    The lemmas of this part are about the builtins of exact arithmetic. *)

Lemma exact_sum_sq_dev (values : list R) (mean : R) :
  sum_sq_dev values mean = Ok (py_sum (map (fun x => (x - mean) ^ 2) values)).
Proof.
  unfold sum_sq_dev.
  rewrite (list_comprehension_total _ (fun x => (x - mean) ^ 2)); [reflexivity|].
  intros x. apply exact_pow_square.
Qed.

Lemma squares_sum_nonneg (values : list R) (mean : R) :
  0 <= py_sum (map (fun x => (x - mean) ^ 2) values).
Proof.
  unfold py_sum. apply fold_left_Rplus_nonneg; [|lra].
  apply Forall_forall. intros y Hy. apply in_map_iff in Hy.
  destruct Hy as (x & <- & _). apply pow2_ge_0.
Qed.

(** Two samples of at least two values, the first not constant, have a
    t statistic. *)
Lemma t_statistic_ok (v20 v21 : list R) :
  (2 <= List.length v20)%nat -> (2 <= List.length v21)%nat ->
  0 < py_sum (map (fun x => (x - py_sum v20 / IZR (Z.of_nat (List.length v20))) ^ 2) v20) ->
  exists t, t_statistic v20 v21 = Ok t.
Proof.
  intros H20 H21 Hvar. unfold t_statistic.
  rewrite (py_div_int_nonzero (py_sum v20)) by lia. cbn [bind].
  rewrite (py_div_int_nonzero (py_sum v21)) by lia. cbn [bind].
  set (m20 := py_sum v20 / IZR (Z.of_nat (List.length v20))) in *.
  set (m21 := py_sum v21 / IZR (Z.of_nat (List.length v21))).
  rewrite !exact_sum_sq_dev. cbn [bind py_pow decimal_builtins].
  set (s20 := py_sum (map (fun x => (x - m20) ^ 2) v20)) in *.
  pose proof (squares_sum_nonneg v21 m21) as Hs21.
  set (s21 := py_sum (map (fun x => (x - m21) ^ 2) v21)) in *.
  set (n1 := Z.of_nat (List.length v20)). set (n2 := Z.of_nat (List.length v21)).
  assert (0 < IZR (n1 - 1)) as Hn1 by (apply IZR_lt; lia).
  assert (0 < IZR (n2 - 1)) as Hn2 by (apply IZR_lt; lia).
  assert (0 < IZR n1) as Hn1' by (apply IZR_lt; lia).
  assert (0 < IZR n2) as Hn2' by (apply IZR_lt; lia).
  rewrite (py_div_int_nonzero s20) by lia. cbn [bind].
  assert (0 < s20 / IZR (n1 - 1)) as Hv20 by (apply Rdiv_lt_0_compat; assumption).
  rewrite exact_pow_positive by lra. cbn [bind].
  rewrite (py_div_int_nonzero s21) by lia. cbn [bind].
  destruct (exact_pow_positive_exponent (s21 / IZR (n2 - 1)) 0.5)
    as (sd21 & -> & Hsd21 & _); [apply Rle_mult_inv_pos; assumption | lra |].
  cbn [bind]. rewrite !exact_pow_square. cbn [bind].
  rewrite !py_div_int_nonzero by lia. cbn [bind].
  pose proof (Rpower_positive (s20 / IZR (n1 - 1)) 0.5) as Hsd20.
  set (sd20 := Rpower (s20 / IZR (n1 - 1)) 0.5) in *.
  assert (0 < sd20 ^ 2 / IZR n1) as Ha.
  { apply Rdiv_lt_0_compat; [|assumption]. apply pow_lt. assumption. }
  assert (0 <= sd21 ^ 2 / IZR n2) as Hb.
  { apply Rle_mult_inv_pos; [apply pow2_ge_0 | assumption]. }
  rewrite exact_pow_positive by lra. cbn [bind].
  pose proof (Rpower_positive (sd20 ^ 2 / IZR n1 + sd21 ^ 2 / IZR n2) 0.5).
  rewrite py_div_nonzero by lra. eauto.
Qed.

Lemma sample_statistic : exists t, t_statistic [10; 12] [11; 13] = Ok t.
Proof.
  apply t_statistic_ok; [simpl; lia | simpl; lia|].
  unfold py_sum. simpl. lra.
Qed.

Lemma distances_total (lines : list string) (country_data : dict points) (p : R) :
  country_points lines = Ok country_data -> 0 < p ->
  exists m, calculate_minkowski_distances lines p = Ok m.
Proof.
  intros Hparse Hp. unfold calculate_minkowski_distances. rewrite Hparse. cbn [bind].
  clear Hparse. generalize (@nil (string * R)).
  induction country_data as [|[country pts] cd IH]; intros s.
  - simpl. eauto.
  - cbn [for_each]. unfold add_distance at 1.
    destruct (exact_distance (feature_x1 pts) (feature_x2 pts) p
                (feature_vectors_length pts) Hp) as (d & -> & _).
    cbn [bind]. apply IH.
Qed.

Lemma combine_example_collected :
  collect_profits combine_example = Ok ([("Y", [10; 12])], [("Y", [11; 13])]).
Proof. run. reflexivity. Qed.

Lemma combine_example_scores : exists t, calculate_t_test combine_example = Ok t.
Proof.
  unfold calculate_t_test. rewrite combine_example_collected.
  cbn [bind keys map fst for_each add_score dict_item dict_get String.eqb Ascii.eqb Bool.eqb].
  destruct sample_statistic as (t & ->). cbn [bind]. eauto.
Qed.

Lemma combine_example_points :
  country_points combine_example
  = Ok [("Y", [(10%Z, 100); (20%Z, 200)]); ("Z", [(5%Z, 50)])].
Proof. run. reflexivity. Qed.

Lemma combine_inner_join_witness :
  exists t m c,
    calculate_t_test combine_example = Ok t
    /\ calculate_minkowski_distances combine_example 3 = Ok m
    /\ combine_t_test_and_minkowski combine_example 3 = Ok c
    /\ keys c = filter (dict_mem m) (keys t)
    /\ (forall k, In k (keys c) <-> In k (keys t) /\ In k (keys m))
    /\ (forall k, dict_get c k =
                  match dict_get t k, dict_get m k with
                  | Some tv, Some mv => Some (tv, mv)
                  | _, _ => None
                  end).
Proof.
  destruct combine_example_scores as [t Ht].
  destruct (distances_total combine_example _ 3 combine_example_points) as [m Hm];
    [lra|].
  destruct (combine_inner_join combine_example 3 t m Ht Hm) as (c & Hc).
  exists t, m, c. auto.
Defined.


(** ** [calculate_category_data]: skipped rows and the uncaught division *)

Lemma setdefault_item {V : Type} (d : dict V) (k : string) (v0 : V) :
  exists v, dict_item (setdefault d k v0) k = Ok v.
Proof.
  unfold dict_item, setdefault, dict_mem.
  destruct (dict_get d k) as [v|] eqn:G.
  - rewrite G. eauto.
  - rewrite dict_get_set, String.eqb_refl. eauto.
Qed.

Section Category.

Context {B : Builtins}.

Lemma category_row_raises (cd : dict orgs) (row : list string) (e : exn) :
  category_row cd row = Raise e -> e = ZeroDivisionError.
Proof.
  unfold category_row, category_row_try, int_of, float_of, py_index.
  destruct (nth_error row 5) as [c5|]; cbn [bind]; try discriminate.
  destruct (nth_error row 0) as [c0|]; cbn [bind]; try discriminate.
  destruct (nth_error row 6) as [c6|]; cbn [bind]; try discriminate.
  destruct (py_int c6) as [n|]; cbn [bind]; try discriminate.
  destruct (nth_error row 8) as [c8|]; cbn [bind]; try discriminate.
  destruct (py_float c8) as [p20|]; cbn [bind]; try discriminate.
  destruct (nth_error row 9) as [c9|]; cbn [bind]; try discriminate.
  destruct (py_float c9) as [p21|]; cbn [bind]; try discriminate.
  destruct (n <=? 0)%Z; try discriminate.
  destruct (py_div (p21 - p20) p20) as [q|e'] eqn:D; cbn [bind].
  - destruct (setdefault_item cd (lower c5) []) as (od & ->). cbn [bind].
    destruct (setdefault_item od c0 []) as (info & ->). cbn [bind]. discriminate.
  - apply py_div_raises_zero in D. subst e'. intros [= <-]. reflexivity.
Qed.

Lemma category_row_skips (cd : dict orgs) (row : list string) :
  skipped_row row -> category_row cd row = Ok cd.
Proof.
  intros Hskip. unfold category_row, category_row_try, int_of, float_of, py_index.
  destruct (nth_error row 5) as [c5|] eqn:N5; cbn [bind]; [|reflexivity].
  destruct (nth_error row 0) as [c0|] eqn:N0; cbn [bind]; [|reflexivity].
  destruct (nth_error row 6) as [c6|] eqn:N6; cbn [bind]; [|reflexivity].
  destruct (py_int c6) as [n|] eqn:I6; cbn [bind]; [|reflexivity].
  destruct (nth_error row 8) as [c8|] eqn:N8; cbn [bind]; [|reflexivity].
  destruct (py_float c8) as [p20|] eqn:F8; cbn [bind]; [|reflexivity].
  destruct (nth_error row 9) as [c9|] eqn:N9; cbn [bind]; [|reflexivity].
  destruct (py_float c9) as [p21|] eqn:F9; cbn [bind]; [|reflexivity].
  destruct (n <=? 0)%Z eqn:E; [reflexivity|].
  exfalso. apply Z.leb_gt in E.
  destruct Hskip as [Hlen|[(cell & Hc & Hbad)|[(cell & Hc & Hbad)|(cell & Hc & Hbad)]]].
  - apply nth_error_None in Hlen. congruence.
  - assert (cell = c6) by congruence. subst cell.
    destruct Hbad as [Hbad|(n' & Hn' & Hle)]; [congruence|].
    assert (n' = n) by congruence. lia.
  - assert (cell = c8) by congruence. congruence.
  - assert (cell = c9) by congruence. congruence.
Qed.

(** C7: a row that is too short, has a cell that does not parse, or has an
    employee count of 0 or less leaves the collected data as they are, and
    the result of the whole call is the result for the table without that
    row. *)
Theorem skipped_row_contributes_nothing (header : list string)
    (before after : list (list string)) (row : list string) :
  skipped_row row ->
  (forall category_data, category_row category_data row = Ok category_data)
  /\ calculate_category_data (header :: before ++ row :: after)
     = calculate_category_data (header :: before ++ after).
Proof.
  intros Hskip. split; [intros cd; apply category_row_skips; assumption|].
  unfold calculate_category_data. cbn [tl]. f_equal.
  rewrite !for_each_app. destruct (for_each before category_row []) as [cd|e];
    cbn [bind]; [|reflexivity].
  cbn [for_each]. rewrite category_row_skips by assumption. reflexivity.
Qed.

(** C9: a row whose five cells parse, with a positive employee count and a
    profit of 0 in 2020, makes the whole call raise [ZeroDivisionError],
    wherever it stands in the table: the row is not skipped. *)
Theorem zero_profit_row_aborts (header : list string)
    (before after : list (list string)) (row : list string)
    (category org_id employees_cell cell_2020 cell_2021 : string)
    (employees : Z) (profit_2021 : R) :
  nth_error row 5 = Some category ->
  nth_error row 0 = Some org_id ->
  nth_error row 6 = Some employees_cell ->
  py_int employees_cell = Some employees ->
  nth_error row 8 = Some cell_2020 ->
  py_float cell_2020 = Some 0 ->
  nth_error row 9 = Some cell_2021 ->
  py_float cell_2021 = Some profit_2021 ->
  (0 < employees)%Z ->
  (forall category_data, category_row category_data row = Raise ZeroDivisionError)
  /\ calculate_category_data (header :: before ++ row :: after)
     = Raise ZeroDivisionError.
Proof.
  intros N5 N0 N6 I6 N8 F8 N9 F9 Hpos.
  assert (forall cd, category_row cd row = Raise ZeroDivisionError) as Hrow.
  { intros cd. unfold category_row, category_row_try, int_of, float_of, py_index.
    rewrite N5, N0, N6. cbn [bind]. rewrite I6, N8. cbn [bind].
    rewrite F8, N9. cbn [bind]. rewrite F9. cbn [bind].
    apply Z.leb_gt in Hpos. rewrite Hpos.
    unfold py_div. destruct (Req_EM_T 0 0) as [_|N]; [reflexivity | contradiction]. }
  split; [exact Hrow|].
  unfold calculate_category_data. cbn [tl].
  rewrite (for_each_must_raise ZeroDivisionError category_row _ row); [reflexivity | | | ].
  - intros s x e _. apply category_row_raises.
  - apply in_or_app. right. left. reflexivity.
  - exact Hrow.
Qed.

End Category.

Lemma malformed_row_skipped : skipped_row malformed_row.
Proof.
  right. left. exists "many". split; [reflexivity|]. left. reflexivity.
Qed.

Lemma skipped_row_contributes_nothing_witness :
  skipped_row malformed_row
  /\ (forall category_data, category_row category_data malformed_row = Ok category_data)
  /\ calculate_category_data retail_example
     = calculate_category_data (retail_header :: retail_rows_before ++ retail_rows_after).
Proof.
  split; [exact malformed_row_skipped|].
  exact (skipped_row_contributes_nothing retail_header retail_rows_before
           retail_rows_after malformed_row malformed_row_skipped).
Defined.

Lemma zero_profit_row_aborts_witness :
  py_int "5" = Some 5%Z /\ py_float "0" = Some 0 /\ py_float "3" = Some 3
  /\ (forall category_data, category_row category_data zero_profit_row
                         = Raise ZeroDivisionError)
  /\ calculate_category_data (["id"] :: [malformed_row] ++ zero_profit_row :: [])
     = Raise ZeroDivisionError.
Proof.
  split; [reflexivity|]. split; [reflexivity|]. split; [reflexivity|].
  apply (zero_profit_row_aborts ["id"] [malformed_row] [] zero_profit_row
           "Retail" "D" "5" "0" "3" 5 3); reflexivity.
Defined.

(** ** [calculate_category_data]: the ranking *)

Lemma index_from_shift (x : string) (xs : list string) (s : nat) :
  index_from x xs (S s) = option_map S (index_from x xs s).
Proof.
  revert s. induction xs as [|y ys IH]; intros s; simpl; [reflexivity|].
  destruct (String.eqb y x); [reflexivity | apply IH].
Qed.

Lemma index_from_none (x : string) (xs : list string) (s : nat) :
  index_from x xs s = None <-> ~ In x xs.
Proof.
  revert s. induction xs as [|y ys IH]; intros s; simpl; [tauto|].
  destruct (String.eqb y x) eqn:E.
  - apply String.eqb_eq in E. split; [discriminate | tauto].
  - apply String.eqb_neq in E. rewrite IH. tauto.
Qed.

Lemma position_head (k : string) (ks : list string) : position k (k :: ks) = 0%nat.
Proof. unfold position. simpl. now rewrite String.eqb_refl. Qed.

Lemma position_tail (k k0 : string) (ks : list string) :
  k0 <> k -> position k (k0 :: ks) = S (position k ks).
Proof.
  intros H. unfold position. simpl. apply String.eqb_neq in H. rewrite H.
  rewrite index_from_shift. destruct (index_from k ks 0); reflexivity.
Qed.

Lemma dict_get_in {V : Type} (d : dict V) (k : string) (v : V) :
  dict_get d k = Some v -> In (k, v) d.
Proof.
  induction d as [|[k0 v0] d IH]; simpl; [discriminate|].
  destruct (String.eqb k0 k) eqn:E.
  - apply String.eqb_eq in E. intros [= <-]. left. now subst.
  - intros H. right. auto.
Qed.

Lemma in_dict_get {V : Type} (d : dict V) (k : string) (v : V) :
  NoDup (keys d) -> In (k, v) d -> dict_get d k = Some v.
Proof.
  unfold keys. induction d as [|[k0 v0] d IH]; simpl; [tauto|].
  intros Hnd [E|Hin]; inversion Hnd; subst.
  - injection E as -> ->. now rewrite String.eqb_refl.
  - destruct (String.eqb k0 k) eqn:E.
    + apply String.eqb_eq in E. subst k0. exfalso.
      match goal with H : ~ In _ _ |- _ => apply H end.
      apply in_map_iff. exists (k, v). auto.
    + auto.
Qed.

(** *** The sort key *)









(** *** The sort *)

Lemma insert_desc_perm (x : keyed) (l : list keyed) :
  Permutation (insert_desc x l) (x :: l).
Proof.
  induction l as [|y l IH]; simpl; [reflexivity|].
  destruct (fst y <=? fst x)%Z; [reflexivity|].
  rewrite IH. apply perm_swap.
Qed.

Lemma insertion_perm (l : list keyed) : Permutation (fold_right insert_desc [] l) l.
Proof.
  induction l as [|x l IH]; simpl; [reflexivity|].
  rewrite insert_desc_perm. now constructor.
Qed.

Lemma goes_before_key (od : orgs) (x y : keyed) :
  goes_before od x y -> (fst y <= fst x)%Z.
Proof. intros [H|[H _]]; lia. Qed.

Lemma insert_desc_sorted (od : orgs) (x : keyed) (l : list keyed) :
  (forall z, In z l -> (fst z <= fst x)%Z -> goes_before od x z) ->
  StronglySorted (goes_before od) l ->
  StronglySorted (goes_before od) (insert_desc x l).
Proof.
  intros Hx Hl. induction l as [|y l IH]; simpl.
  - repeat constructor.
  - apply StronglySorted_inv in Hl. destruct Hl as [Hl Hy].
    destruct (fst y <=? fst x)%Z eqn:E.
    + apply Z.leb_le in E. constructor; [constructor; assumption|].
      constructor.
      * apply Hx; [left; reflexivity | assumption].
      * rewrite Forall_forall in *. intros z Hz.
        apply Hx; [right; assumption|].
        specialize (Hy z Hz). apply goes_before_key in Hy. lia.
    + apply Z.leb_gt in E. constructor.
      * apply IH; [|assumption]. intros z Hz. apply Hx. right; assumption.
      * rewrite Forall_forall in *. intros z Hz.
        apply (Permutation_in _ (insert_desc_perm x l)) in Hz.
        destruct Hz as [<-|Hz]; [left; lia | auto].
Qed.

(** Insertion from the right sorts by decreasing key, items of equal keys
    in the order of the dictionary. *)
Lemma insertion_sorted (l : list keyed) :
  NoDup (keys (map snd l)) ->
  StronglySorted (goes_before (map snd l)) (fold_right insert_desc [] l).
Proof.
  induction l as [|x l IH]; intros Hnd; simpl; [constructor|].
  unfold keys in Hnd. simpl in Hnd. inversion Hnd as [|? ? Hx Hnd']; subst.
  assert (forall z, In z l -> fst (snd z) <> fst (snd x)) as Hkey.
  { intros z Hz E. apply Hx. rewrite <- E. apply in_map, in_map. assumption. }
  apply insert_desc_sorted.
  - intros z Hz Hle. apply (Permutation_in _ (insertion_perm l)) in Hz.
    destruct (Z.eq_dec (fst z) (fst x)) as [E|N].
    + right. split; [symmetry; assumption|].
      unfold keys. simpl. rewrite position_head.
      rewrite position_tail by (apply not_eq_sym; auto). lia.
    + left. lia.
  - specialize (IH Hnd').
    assert (forall a b, In a (fold_right insert_desc [] l) ->
                        In b (fold_right insert_desc [] l) ->
                        goes_before (map snd l) a b ->
                        goes_before (snd x :: map snd l) a b) as Hmono.
    { intros a b Ha Hb [H|[H1 H2]]; [left; assumption | right; split; [assumption|]].
      apply (Permutation_in _ (insertion_perm l)) in Ha, Hb.
      unfold keys. simpl.
      rewrite !position_tail by (apply not_eq_sym; auto).
      unfold keys in H2. lia. }
    clear - IH Hmono. induction IH as [|a s Hs IHs Ha]; [constructor|].
    constructor.
    + apply IHs. intros u v Hu Hv. apply Hmono; right; assumption.
    + rewrite Forall_forall in *. intros z Hz.
      apply Hmono; [left; reflexivity | right; assumption | auto].
Qed.

(** In a list sorted by [goes_before], what does not go after comes first. *)
Lemma sorted_position (od : orgs) (s : list keyed) :
  StronglySorted (goes_before od) s -> NoDup (keys (map snd s)) ->
  forall x y, In x s -> In y s -> fst (snd x) <> fst (snd y) -> ~ goes_before od y x ->
  (position (fst (snd x)) (keys (map snd s)) < position (fst (snd y)) (keys (map snd s)))%nat.
Proof.
  induction 1 as [|h s Hs IH Hh]; intros Hnd x y Hx Hy Hne Hnot; [destruct Hx|].
  unfold keys in *. simpl in *. rewrite Forall_forall in Hh.
  inversion Hnd as [|? ? Hfresh Hnd']; subst.
  assert (forall z, In z s -> fst (snd h) <> fst (snd z)) as Hkey.
  { intros z Hz E. apply Hfresh. rewrite E. apply in_map, in_map. assumption. }
  destruct Hx as [->|Hx].
  - rewrite position_head. destruct Hy as [->|Hy]; [contradiction|].
    rewrite position_tail by auto. lia.
  - destruct Hy as [->|Hy]; [exfalso; apply Hnot; apply Hh; assumption|].
    rewrite !position_tail by auto.
    apply -> Nat.succ_lt_mono. apply IH; assumption.
Qed.

(** What the sort has computed: the items with their keys, in the order of
    the dictionary. *)
Lemma sorted_desc_ok (od : orgs) (sorted : list (string * list entry)) :
  sorted_desc od = Ok sorted ->
  exists l : list keyed,
    map snd l = od
    /\ Forall (fun kx => sort_key (snd (snd kx)) = Ok (fst kx)) l
    /\ sorted = map snd (fold_right insert_desc [] l).
Proof.
  unfold sorted_desc.
  destruct (list_comprehension _ od) as [l|] eqn:E; cbn [bind]; [|discriminate].
  intros [= <-]. exists l. apply list_comprehension_ok in E.
  split; [|split; [|reflexivity]].
  - induction E as [|item kx od l H _ IH]; [reflexivity|].
    destruct (sort_key (snd item)); cbn [bind] in H; [|discriminate].
    injection H as <-. simpl. now rewrite IH.
  - induction E as [|item kx od l H _ IH]; constructor; [|assumption].
    destruct (sort_key (snd item)) as [k|] eqn:K; cbn [bind] in H; [|discriminate].
    injection H as <-. exact K.
Qed.

(** *** The ranks *)

(** The ranks written by the loop over [enumerate(sorted_orgs, start=1)]. *)
Lemma rank_fold (items : list (string * list entry)) :
  NoDup (keys items) ->
  forall (start : nat) (od : orgs),
  (forall id info, In (id, info) items -> dict_get od id = Some info) ->
  let od' := fold_left rank_org (combine (seq start (List.length items)) items) od in
  keys od' = keys od
  /\ forall id,
       dict_get od' id =
       match index_from id (keys items) start with
       | Some r => option_map (map (append_rank r)) (dict_get od id)
       | None => dict_get od id
       end.
Proof.
  induction items as [|[id0 info0] items IH]; intros Hnd start od Hod; simpl.
  - auto.
  - unfold keys in Hnd. simpl in Hnd. inversion Hnd as [|? ? Hfresh Hnd']; subst.
    assert (dict_get od id0 = Some info0) as H0 by (apply Hod; left; reflexivity).
    destruct (IH Hnd' (S start) (dict_set od id0 (map (append_rank start) info0)))
      as [Hkeys Hget].
    { intros id info Hin. rewrite dict_get_set.
      destruct (String.eqb id0 id) eqn:E.
      - apply String.eqb_eq in E. subst id. exfalso. apply Hfresh.
        apply in_map_iff. exists (id0, info). auto.
      - apply Hod. right. assumption. }
    split.
    + rewrite Hkeys, keys_set. unfold dict_mem. now rewrite H0.
    + intros id. rewrite Hget, dict_get_set.
      destruct (String.eqb id0 id) eqn:E.
      * apply String.eqb_eq in E. subst id.
        assert (index_from id0 (keys items) (S start) = None) as ->
          by (apply index_from_none; exact Hfresh).
        rewrite H0. reflexivity.
      * reflexivity.
Qed.

Lemma ranks_of_sorted (ks : list string) (start : nat) :
  NoDup ks ->
  map (fun k => match index_from k ks start with Some r => r | None => 0%nat end) ks
  = seq start (List.length ks).
Proof.
  revert start. induction ks as [|k ks IH]; intros start Hnd; simpl; [reflexivity|].
  inversion Hnd as [|? ? Hfresh Hnd']; subst.
  rewrite String.eqb_refl. f_equal.
  rewrite <- (IH (S start) Hnd'). apply map_ext_in.
  intros a Ha. destruct (String.eqb k a) eqn:E; [|reflexivity].
  apply String.eqb_eq in E. subst a. contradiction.
Qed.

(** The ranking of one category, in terms of what the sort has computed. *)
Lemma rank_orgs_ok (od ranked : orgs) :
  NoDup (keys od) ->
  rank_orgs od = Ok ranked ->
  exists (l : list keyed) (rank : string -> nat),
    map snd l = od
    /\ Forall (fun kx => sort_key (snd (snd kx)) = Ok (fst kx)) l
    /\ keys ranked = keys od
    /\ Permutation (map rank (keys od)) (seq 1 (List.length od))
    /\ (forall id info', dict_get ranked id = Some info' ->
          exists k info,
            In (k, (id, info)) l /\ dict_get od id = Some info
            /\ info' = map (append_rank (rank id)) info)
    /\ forall x y, In x l -> In y l -> fst (snd x) <> fst (snd y) ->
         ~ goes_before od y x -> (rank (fst (snd x)) < rank (fst (snd y)))%nat.
Proof.
  intros Hnd. unfold rank_orgs.
  destruct (sorted_desc od) as [sorted|] eqn:Hsorted; cbn [bind]; [|discriminate].
  intros [= <-].
  destruct (sorted_desc_ok _ _ Hsorted) as (l & Hl & Hkeyed & ->).
  set (s := fold_right insert_desc [] l).
  assert (Permutation s l) as Hperm by apply insertion_perm.
  assert (Permutation (map snd s) od) as Hperm'
    by (rewrite <- Hl; apply Permutation_map; assumption).
  assert (Permutation (keys (map snd s)) (keys od)) as Hpk
    by (apply Permutation_map; assumption).
  assert (NoDup (keys (map snd s))) as Hnds
    by (apply (Permutation_NoDup (Permutation_sym Hpk)); assumption).
  pose (rank := fun id => match index_from id (keys (map snd s)) 1 with
                          | Some r => r | None => 0%nat end).
  destruct (rank_fold (map snd s) Hnds 1 od) as [Hkeys Hget].
  { intros id info Hin. apply in_dict_get; [assumption|].
    apply (Permutation_in _ Hperm'). assumption. }
  unfold enumerate1.
  set (ranked := fold_left rank_org
                   (combine (seq 1 (List.length (map snd s))) (map snd s)) od) in *.
  assert (forall id, In id (keys od) -> rank id = S (position id (keys (map snd s))))
    as Hrank.
  { intros id Hin. apply (Permutation_in _ (Permutation_sym Hpk)) in Hin.
    unfold rank, position. rewrite index_from_shift.
    destruct (index_from id (keys (map snd s)) 0) as [i|] eqn:I; [reflexivity|].
    apply index_from_none in I. contradiction. }
  assert (forall x, In x l -> In (fst (snd x)) (keys od)) as Hin_keys.
  { intros x Hx. rewrite <- Hl. unfold keys. apply in_map, in_map. assumption. }
  exists l, rank. split; [exact Hl|]. split; [exact Hkeyed|]. split; [exact Hkeys|].
  split; [|split].
  - replace (List.length od) with (List.length (keys (map snd s))).
    + rewrite <- (ranks_of_sorted (keys (map snd s)) 1 Hnds).
      apply Permutation_map. apply Permutation_sym. assumption.
    + rewrite (Permutation_length Hpk). unfold keys. apply length_map.
  - intros id info' H. rewrite Hget in H.
    destruct (dict_get od id) as [info|] eqn:G.
    2:{ destruct (index_from id (keys (map snd s)) 1); discriminate. }
    assert (In id (keys od)) as Hin by (apply dict_get_in_keys; congruence).
    pose proof (Hrank id Hin) as Hr. unfold rank in Hr |- *.
    destruct (index_from id (keys (map snd s)) 1) as [r|] eqn:I; [|discriminate].
    simpl in H. injection H as <-.
    apply dict_get_in in G. rewrite <- Hl in G. apply in_map_iff in G.
    destruct G as ([k item] & Hitem & Hk). simpl in Hitem. subst item.
    exists k, info. repeat split; auto.
  - intros x y Hx Hy Hne Hnot.
    rewrite (Hrank _ (Hin_keys x Hx)), (Hrank _ (Hin_keys y Hy)).
    apply -> Nat.succ_lt_mono.
    apply (sorted_position od s); try assumption.
    + rewrite <- Hl. apply insertion_sorted. rewrite Hl. assumption.
    + apply (Permutation_in _ (Permutation_sym Hperm)). assumption.
    + apply (Permutation_in _ (Permutation_sym Hperm)). assumption.
Qed.

Lemma setdefault_get {V : Type} (d : dict V) (k k' : string) (v0 : V) :
  dict_get (setdefault d k v0) k' =
  if String.eqb k k'
  then Some (match dict_get d k with Some v => v | None => v0 end)
  else dict_get d k'.
Proof.
  unfold setdefault, dict_mem. destruct (dict_get d k) as [v|] eqn:G.
  - destruct (String.eqb k k') eqn:E; [|reflexivity].
    apply String.eqb_eq in E. now subst.
  - apply dict_get_set.
Qed.


(** The loop over the categories keeps the keys and ranks each category. *)
Lemma rank_categories_ok (cd result : dict orgs) :
  rank_categories cd = Ok result ->
  keys result = keys cd
  /\ forall category ranked, dict_get result category = Some ranked ->
       exists od, dict_get cd category = Some od /\ rank_orgs od = Ok ranked.
Proof.
  intros H. apply list_comprehension_ok in H.
  induction H as [|[c od] out cd result Hout _ [IHk IHg]].
  - split; [reflexivity | discriminate].
  - cbn [fst snd] in Hout.
    destruct (rank_orgs od) as [ranked0|] eqn:E; cbn [bind] in Hout; [|discriminate].
    injection Hout as <-. split.
    + unfold keys in *. simpl. now rewrite IHk.
    + intros category ranked. simpl.
      destruct (String.eqb c category).
      * intros [= <-]. eauto.
      * apply IHg.
Qed.

Section Ranking.

Context {B : Builtins}.




End Ranking.

(** The example of the specification: two organisations of 50 employees in
    "retail", "A" met first, are ranked 1 and 2. *)
Lemma retail_example_result :
  calculate_category_data retail_example = Ok [("retail", retail_ranked)].
Proof.
  run_rows.
  lazy -[IZR Rdiv Rplus Rmult Rminus Ropp Rinv Rabs decimal_4f].
  reflexivity.
Qed.






(** Nor does an addition that rounds tell two sums apart: 2^53 + 1, added
    up from two rows, is the float 2^53. *)
Lemma ranking_ties_rounded_sums :
  exists percentage,
    calculate_category_data rounded_sum_example
    = Ok [("retail",
           [("B", [mk_entry (2 ^ 53) percentage [1%nat]]);
            ("A", [mk_entry (2 ^ 53) percentage [2%nat];
                   mk_entry 1 percentage [2%nat]])])]
    /\ (size_score [mk_entry (2 ^ 53) percentage [1%nat]]
        < size_score [mk_entry (2 ^ 53) percentage [2%nat];
                      mk_entry 1 percentage [2%nat]])%Z.
Proof.
  eexists. split; [|reflexivity].
  run_rows.
  lazy -[IZR Rdiv Rplus Rmult Rminus Ropp Rinv Rabs decimal_4f].
  reflexivity.
Qed.

(** ** Grouping *)

Lemma in_first_seen (k : string) (ks : list string) : In k (first_seen ks) <-> In k ks.
Proof.
  induction ks as [|k0 ks IH]; simpl; [tauto|].
  rewrite filter_In, IH. destruct (String.eqb k0 k) eqn:E.
  - apply String.eqb_eq in E. simpl. intuition congruence.
  - apply String.eqb_neq in E. simpl. intuition congruence.
Qed.

Lemma first_seen_nodup (ks : list string) : NoDup (first_seen ks).
Proof.
  induction ks as [|k ks IH]; simpl; constructor.
  - rewrite filter_In, String.eqb_refl. simpl. intros [_ H]. discriminate.
  - apply NoDup_filter. assumption.
Qed.

Lemma first_seen_snoc (ks : list string) (k : string) :
  first_seen (ks ++ [k])
  = if existsb (String.eqb k) ks then first_seen ks else (first_seen ks ++ [k])%list.
Proof.
  induction ks as [|k0 ks IH]; simpl; [reflexivity|].
  rewrite IH. rewrite (String.eqb_sym k k0).
  destruct (String.eqb k0 k) eqn:E; simpl.
  - destruct (existsb (String.eqb k) ks); [reflexivity|].
    rewrite filter_app. simpl. rewrite E. simpl. now rewrite app_nil_r.
  - destruct (existsb (String.eqb k) ks); [reflexivity|].
    rewrite filter_app. simpl. rewrite E. reflexivity.
Qed.

Lemma items_of_app {V : Type} (k : string) (xs ys : list (string * V)) :
  items_of k (xs ++ ys) = (items_of k xs ++ items_of k ys)%list.
Proof. unfold items_of. now rewrite filter_app, map_app. Qed.

Lemma items_of_nil_iff {V : Type} (k : string) (items : list (string * V)) :
  items_of k items = [] <-> ~ In k (map fst items).
Proof.
  unfold items_of. induction items as [|[k0 v] items IH]; simpl; [tauto|].
  destruct (String.eqb k0 k) eqn:E; simpl.
  - apply String.eqb_eq in E. split; [discriminate | intros H; exfalso; auto].
  - apply String.eqb_neq in E. rewrite IH. tauto.
Qed.

Lemma existsb_eqb_in (k : string) (ks : list string) :
  existsb (String.eqb k) ks = true <-> In k ks.
Proof.
  rewrite existsb_exists. split.
  - intros (x & Hx & E). apply String.eqb_eq in E. now subst.
  - intros H. exists k. split; [assumption | apply String.eqb_refl].
Qed.

Lemma grouped_nil {V : Type} : @grouped V [] [].
Proof. split; [reflexivity | intros k; reflexivity]. Qed.

Lemma grouped_step {V : Type} (d d' : dict (list V)) (items : list (string * V))
    (k : string) (x : V) :
  grouped d items ->
  dict_append (setdefault d k []) k x = Ok d' ->
  grouped d' (items ++ [(k, x)]).
Proof.
  intros [Hkeys Hget] Happ.
  destruct (append_after_setdefault d k x) as (e & He & Hk & Hg).
  rewrite He in Happ. injection Happ as <-. split.
  - rewrite Hk, map_app. cbn [map fst]. rewrite first_seen_snoc.
    assert (dict_mem d k = existsb (String.eqb k) (map fst items)) as ->.
    { apply eq_true_iff_eq. rewrite existsb_eqb_in, <- in_first_seen, <- Hkeys.
      unfold dict_mem. rewrite dict_get_in_keys.
      destruct (dict_get d k); split; congruence. }
    rewrite Hkeys. reflexivity.
  - intros k'. rewrite Hg, items_of_app. unfold items_of at 2. simpl.
    destruct (String.eqb k k') eqn:E; simpl.
    + apply String.eqb_eq in E. subst k'. rewrite Hget.
      destruct (items_of k items); reflexivity.
    + rewrite app_nil_r. apply Hget.
Qed.

Lemma grouped_nodup {V : Type} (d : dict (list V)) (items : list (string * V)) :
  grouped d items -> NoDup (keys d).
Proof. intros [-> _]. apply first_seen_nodup. Qed.

(** ** More on [calculate_minkowski_distances] *)

Section DistanceGroups.

Context {B : Builtins}.

Lemma add_point_row (header : list string) (ci ei mi : nat) (cd cd' : dict points)
    (line : string) :
  index_from "country" header 0 = Some ci ->
  add_point header ei mi cd line = Ok cd' ->
  exists country pt,
    point_row ci ei mi line = Some (country, pt)
    /\ dict_append (setdefault cd country []) country pt = Ok cd'.
Proof.
  intros Hci. unfold add_point, list_index, point_row, py_index, int_of, float_of.
  rewrite Hci. cbn [bind].
  destruct (nth_error (parse_row line) ci) as [country|]; cbn [bind]; [|discriminate].
  destruct (nth_error (parse_row line) ei) as [ec|]; cbn [bind]; [|discriminate].
  destruct (py_int ec) as [e|]; cbn [bind]; [|discriminate].
  destruct (nth_error (parse_row line) mi) as [mc|]; cbn [bind]; [|discriminate].
  destruct (py_float mc) as [m|]; cbn [bind]; [|discriminate].
  intros H. exists country, (e, m). auto.
Qed.

Lemma point_loop_grouped (header : list string) (ci ei mi : nat) (rest : list string) :
  index_from "country" header 0 = Some ci ->
  forall cd cd' items,
  grouped cd items ->
  for_each rest (add_point header ei mi) cd = Ok cd' ->
  grouped cd' (items ++ choose (point_row ci ei mi) rest)
  /\ List.length (choose (point_row ci ei mi) rest) = List.length rest.
Proof.
  intros Hci. induction rest as [|line rest IH]; intros cd cd' items Hg; simpl.
  - intros [= <-]. now rewrite app_nil_r.
  - destruct (add_point header ei mi cd line) as [cd1|] eqn:E; [|discriminate].
    destruct (add_point_row _ _ _ _ _ _ _ Hci E) as (country & pt & -> & Happ).
    intros Hrest.
    destruct (IH _ _ _ (grouped_step _ _ _ _ _ Hg Happ) Hrest) as [H1 H2].
    rewrite <- app_assoc in H1. simpl in *. auto.
Qed.

Lemma country_points_grouped (lines : list string) (cd : dict points) :
  country_points lines = Ok cd ->
  grouped cd (point_rows lines)
  /\ List.length (point_rows lines) = List.length (tl lines).
Proof.
  unfold country_points, py_index, point_rows, list_index.
  destruct lines as [|first rest]; cbn [nth_error bind tl]; [discriminate|].
  destruct (index_from "number of employees" (parse_row first) 0) as [ei|];
    cbn [bind]; [|discriminate].
  destruct (index_from "median Salary" (parse_row first) 0) as [mi|];
    cbn [bind]; [|discriminate].
  destruct (index_from "country" (parse_row first) 0) as [ci|] eqn:Hci.
  - intros Hloop. apply (point_loop_grouped _ ci _ _ _ Hci _ _ [] grouped_nil Hloop).
  - destruct rest as [|line rest]; cbn [for_each].
    + intros [= <-]. split; [apply grouped_nil | reflexivity].
    + unfold add_point at 1, list_index. rewrite Hci. cbn [bind]. discriminate.
Qed.

(** X7: when the table parses, the groups are the countries in order of
    first appearance, each with the (employees, median salary) pairs of its
    rows in row order, and every data line has contributed one pair. *)
Theorem country_points_groups_rows (lines : list string) (country_data : dict points) :
  country_points lines = Ok country_data ->
  keys country_data = first_seen (map fst (point_rows lines))
  /\ (forall country,
        dict_get country_data country = nonempty (items_of country (point_rows lines)))
  /\ List.length (point_rows lines) = List.length (tl lines).
Proof.
  intros H. destruct (country_points_grouped _ _ H) as [[Hk Hg] Hl]. auto.
Qed.

Lemma malformed_cell_stops_distances (first line : string) (rest : list string)
    (i : nat) (cell : string) (p : R) :
  In line rest ->
  nth_error (parse_row line) i = Some cell ->
  (index_from "number of employees" (parse_row first) 0 = Some i /\ py_int cell = None)
  \/ (index_from "median Salary" (parse_row first) 0 = Some i /\ py_float cell = None) ->
  forall m, calculate_minkowski_distances (first :: rest) p <> Ok m.
Proof.
  intros Hin Hcell Hbad m Hm. unfold calculate_minkowski_distances in Hm.
  destruct (country_points (first :: rest)) as [cd|] eqn:Hcd; [|discriminate].
  destruct (country_points_grouped _ _ Hcd) as [_ Hlen].
  unfold point_rows in Hlen. cbn [tl] in Hlen.
  destruct (index_from "country" (parse_row first) 0) as [ci|];
    [|destruct rest; [destruct Hin | destruct (index_from _ _ _); [destruct (index_from _ _ _)|]; discriminate]].
  destruct (index_from "number of employees" (parse_row first) 0) as [ei|] eqn:He;
    [|destruct rest; [destruct Hin | discriminate]].
  destruct (index_from "median Salary" (parse_row first) 0) as [mi|] eqn:Hmi;
    [|destruct rest; [destruct Hin | discriminate]].
  assert (point_row ci ei mi line = None) as Hnone.
  { unfold point_row.
    destruct (nth_error (parse_row line) ci); [|reflexivity].
    destruct Hbad as [[[= ->] Hp]|[[= ->] Hp]]; rewrite Hcell.
    - destruct (nth_error (parse_row line) mi); [|reflexivity]. now rewrite Hp.
    - destruct (nth_error (parse_row line) ei) as [ec|]; [|reflexivity].
      rewrite Hp. destruct (py_int ec); reflexivity. }
  clear - Hin Hnone Hlen.
  assert (forall l, List.length (choose (point_row ci ei mi) l) <= List.length l)%nat as Hle.
  { induction l as [|x l IH]; simpl; [lia|]. destruct (point_row ci ei mi x); simpl; lia. }
  induction rest as [|x rest IH]; [destruct Hin|].
  simpl in Hlen. destruct Hin as [->|Hin].
  - rewrite Hnone in Hlen. specialize (Hle rest). lia.
  - destruct (point_row ci ei mi x); simpl in Hlen; [apply IH; [assumption | lia]|].
    specialize (Hle rest). lia.
Qed.

(** X8: a data line whose employee cell is not an integer, or whose median
    salary cell is not a number, is fatal: the call returns no result. *)
Theorem distances_malformed_cell_is_fatal (first line : string) (rest : list string)
    (i : nat) (cell : string) (p : R) :
  In line rest ->
  nth_error (parse_row line) i = Some cell ->
  (index_from "number of employees" (parse_row first) 0 = Some i /\ py_int cell = None)
  \/ (index_from "median Salary" (parse_row first) 0 = Some i /\ py_float cell = None) ->
  forall m, calculate_minkowski_distances (first :: rest) p <> Ok m.
Proof. exact (malformed_cell_stops_distances first line rest i cell p). Qed.

End DistanceGroups.

Section DistanceResults.

Context {B : Builtins}.

Lemma distance_loop (p : R) (items : dict points) :
  NoDup (keys items) ->
  forall s m : dict R,
  (forall k, In k (keys items) -> ~ In k (keys s)) ->
  for_each items (add_distance p) s = Ok m ->
  keys m = (keys s ++ keys items)%list
  /\ (forall k, ~ In k (keys items) -> dict_get m k = dict_get s k)
  /\ forall k pts, dict_get items k = Some pts ->
       exists d, minkowski_distance (feature_x1 pts) (feature_x2 pts) p = Ok d
                 /\ dict_get m k = Some (round4 d).
Proof.
  induction items as [|[c pts] items IH]; intros Hnd s m Hfresh.
  - simpl. intros [= <-]. rewrite app_nil_r. repeat split; auto. discriminate.
  - unfold keys in Hnd. simpl in Hnd. inversion Hnd as [|? ? Hc Hnd']; subst.
    cbn [for_each]. unfold add_distance at 1.
    destruct (minkowski_distance (feature_x1 pts) (feature_x2 pts) p) as [d|] eqn:Hd;
      cbn [bind]; [|discriminate].
    intros Hrest.
    assert (dict_mem s c = false) as Hmem.
    { destruct (dict_mem s c) eqn:M; [|reflexivity].
      apply dict_mem_in_keys in M. exfalso. apply (Hfresh c); [left; reflexivity | assumption]. }
    destruct (IH Hnd' (dict_set s c (round4 d)) m) as (Hkeys & Hout & Hin);
      [|assumption|].
    { intros k Hk. rewrite keys_set, Hmem. intros H. apply in_app_or in H.
      destruct H as [H|[<-|[]]]; [|contradiction].
      apply (Hfresh k); [right; assumption | assumption]. }
    split; [|split].
    + rewrite Hkeys, keys_set, Hmem. unfold keys. simpl. now rewrite <- app_assoc.
    + intros k Hk. rewrite Hout by (intros H; apply Hk; right; assumption).
      rewrite dict_get_set. destruct (String.eqb c k) eqn:E; [|reflexivity].
      apply String.eqb_eq in E. exfalso. apply Hk. left. assumption.
    + intros k pts' Hget. simpl in Hget. destruct (String.eqb c k) eqn:E.
      * apply String.eqb_eq in E. subst k. injection Hget as <-.
        exists d. split; [assumption|].
        rewrite Hout by assumption. rewrite dict_get_set, String.eqb_refl. reflexivity.
      * apply Hin. assumption.
Qed.

(** X9: a result that the call returns has the groups' keys in the groups'
    order, and maps each country to the distance of that group's two
    vectors, rounded to 4 decimals: for every group a distance has been
    returned. *)
Theorem distances_are_rounded_group_distances (lines : list string)
    (country_data : dict points) (p : R) (m : dict R) :
  country_points lines = Ok country_data ->
  calculate_minkowski_distances lines p = Ok m ->
  keys m = keys country_data
  /\ forall country pts, dict_get country_data country = Some pts ->
       exists d, minkowski_distance (feature_x1 pts) (feature_x2 pts) p = Ok d
                 /\ dict_get m country = Some (round4 d).
Proof.
  intros Hparse. unfold calculate_minkowski_distances. rewrite Hparse. cbn [bind].
  intros Hm. destruct (country_points_grouped _ _ Hparse) as [Hg _].
  destruct (distance_loop p country_data (grouped_nodup _ _ Hg) [] m)
    as (Hkeys & _ & Hin); [intros k _ [] | assumption |].
  split; [exact Hkeys|].
  intros country pts Hget. apply (Hin _ _ Hget).
Qed.

End DistanceResults.

(** ** Tables without lines, rows or columns *)

Section Headers.

Context {B : Builtins}.

(** X10: on a file without lines the three engines that read lines raise
    [IndexError] at [lines[0]]; [calculate_category_data] on an empty table,
    or on a table with a header only, returns an empty dictionary. *)
Theorem empty_table (p : R) (header : list string) :
  calculate_minkowski_distances [] p = Raise IndexError
  /\ calculate_t_test [] = Raise IndexError
  /\ combine_t_test_and_minkowski [] p = Raise IndexError
  /\ calculate_category_data [] = Ok []
  /\ calculate_category_data [header] = Ok [].
Proof. repeat split. Qed.

(** X11: when the header lacks one of the two profit columns,
    [calculate_t_test] raises the [ValueError] of [index], whatever the data
    lines are. *)
Theorem t_test_missing_profit_column (first : string) (rest : list string) :
  index_from "profits in 2020(million)" (parse_row first) 0 = None
  \/ index_from "profits in 2021(million)" (parse_row first) 0 = None ->
  calculate_t_test (first :: rest) = Raise (ValueError not_in_list_msg).
Proof.
  intros H. unfold calculate_t_test, collect_profits, py_index, list_index.
  cbn [nth_error bind].
  destruct (index_from "profits in 2020(million)" (parse_row first) 0) as [i|];
    cbn [bind]; [|reflexivity].
  destruct H as [H|H]; [discriminate|]. rewrite H. reflexivity.
Qed.

(** X12: when the header lacks the employees or the median salary column,
    [calculate_minkowski_distances] raises the [ValueError] of [index],
    whatever the data lines and the exponent are. *)
Theorem distances_missing_column (first : string) (rest : list string) (p : R) :
  index_from "number of employees" (parse_row first) 0 = None
  \/ index_from "median Salary" (parse_row first) 0 = None ->
  calculate_minkowski_distances (first :: rest) p = Raise (ValueError not_in_list_msg).
Proof.
  intros H. unfold calculate_minkowski_distances, country_points, py_index, list_index.
  cbn [nth_error bind].
  destruct (index_from "number of employees" (parse_row first) 0) as [i|];
    cbn [bind]; [|reflexivity].
  destruct H as [H|H]; [discriminate|]. rewrite H. reflexivity.
Qed.

(** X13: the country column is looked up once per data line: a header that
    has the other columns but no "country" gives empty results when there
    is no data line, and the [ValueError] of [index] as soon as there is
    one. *)
Theorem missing_country_column (first : string) (rest : list string) (p : R)
    (i20 i21 ei mi : nat) :
  index_from "country" (parse_row first) 0 = None ->
  index_from "profits in 2020(million)" (parse_row first) 0 = Some i20 ->
  index_from "profits in 2021(million)" (parse_row first) 0 = Some i21 ->
  index_from "number of employees" (parse_row first) 0 = Some ei ->
  index_from "median Salary" (parse_row first) 0 = Some mi ->
  calculate_t_test (first :: rest)
    = match rest with [] => Ok [] | _ => Raise (ValueError not_in_list_msg) end
  /\ calculate_minkowski_distances (first :: rest) p
    = match rest with [] => Ok [] | _ => Raise (ValueError not_in_list_msg) end.
Proof.
  intros Hc H20 H21 He Hm.
  unfold calculate_t_test, collect_profits, calculate_minkowski_distances,
    country_points, py_index, list_index.
  cbn [nth_error bind tl]. rewrite H20, H21, He, Hm. cbn [bind].
  destruct rest as [|line rest]; [split; reflexivity|].
  cbn [for_each]. unfold add_profits, add_point, list_index. rewrite Hc.
  split; reflexivity.
Qed.

End Headers.

(** ** Exchanging the two periods *)

Section Exchange.

Context {B : Builtins}.

(** X15: exchanging the two samples changes the sign of the statistic. *)
Theorem t_statistic_exchange (v20 v21 : list R) (t : R) :
  t_statistic v20 v21 = Ok t -> t_statistic v21 v20 = Ok (- t).
Proof.
  unfold t_statistic.
  destruct (py_div_int (py_sum v20) _) as [m20|] eqn:E1; cbn [bind]; [|discriminate].
  destruct (py_div_int (py_sum v21) _) as [m21|] eqn:E2; cbn [bind]; [|discriminate].
  destruct (sum_sq_dev v20 m20) as [s20|] eqn:E3; cbn [bind]; [|discriminate].
  destruct (py_div_int s20 _) as [var20|] eqn:E4; cbn [bind]; [|discriminate].
  destruct (py_pow var20 0.5) as [sd20|] eqn:E5; cbn [bind]; [|discriminate].
  destruct (sum_sq_dev v21 m21) as [s21|] eqn:E6; cbn [bind]; [|discriminate].
  destruct (py_div_int s21 _) as [var21|] eqn:E7; cbn [bind]; [|discriminate].
  destruct (py_pow var21 0.5) as [sd21|] eqn:E8; cbn [bind]; [|discriminate].
  destruct (py_pow sd20 2) as [square_20|] eqn:E9; cbn [bind]; [|discriminate].
  destruct (py_div_int square_20 _) as [a|] eqn:E10; cbn [bind]; [|discriminate].
  destruct (py_pow sd21 2) as [square_21|] eqn:E11; cbn [bind]; [|discriminate].
  destruct (py_div_int square_21 _) as [b|] eqn:E12; cbn [bind]; [|discriminate].
  rewrite (Rplus_comm b a).
  destruct (py_pow (a + b) 0.5) as [den|] eqn:E13; cbn [bind]; [|discriminate].
  unfold py_div. destruct (Req_EM_T den 0); [discriminate|].
  intros [= <-]. f_equal. field. assumption.
Qed.

End Exchange.

(** ** More on [calculate_t_test] *)

Section MoreTTest.

Context {B : Builtins}.

Lemma add_profits_grouped (header : list string) (ci i20 i21 : nat)
    (st st' : dict (list R) * dict (list R)) (line : string)
    (rows : list (string * (R * R))) :
  index_from "country" header 0 = Some ci ->
  grouped (fst st) (map (fun r => (fst r, fst (snd r))) rows) ->
  add_profits header i20 i21 st line = Ok st' ->
  grouped (fst st')
    (map (fun r => (fst r, fst (snd r))) (rows ++ choose (paired_row ci i20 i21) [line])).
Proof.
  intros Hci Hg. destruct st as [d20 d21]. simpl in Hg.
  unfold add_profits, list_index. rewrite Hci. cbn [bind].
  unfold paired_row, py_index, try_profits, py_index. cbn [choose].
  destruct (nth_error (parse_row line) ci) as [country|]; cbn [bind]; [|discriminate].
  destruct (nth_error (parse_row line) i20) as [c20|]; cbn [bind]; [|discriminate].
  destruct (py_float c20) as [a|]; cbn [bind].
  2:{ intros [= <-].
      destruct (nth_error (parse_row line) i21); rewrite app_nil_r; assumption. }
  destruct (nth_error (parse_row line) i21) as [c21|]; cbn [bind]; [|discriminate].
  destruct (py_float c21) as [b|]; cbn [bind].
  2:{ intros [= <-]. rewrite app_nil_r. assumption. }
  destruct (dict_append (setdefault d20 country []) country a) as [e20|] eqn:E20;
    cbn [bind]; [|discriminate].
  destruct (dict_append (setdefault d21 country []) country b) as [e21|];
    cbn [bind]; [|discriminate].
  intros [= <-]. rewrite map_app. cbn [map fst snd].
  apply (grouped_step _ _ _ _ _ Hg E20).
Qed.

Lemma collect_profits_keys (lines : list string)
    (profits_2020 profits_2021 : dict (list R)) :
  collect_profits lines = Ok (profits_2020, profits_2021) ->
  keys profits_2020 = first_seen (map fst (paired_rows lines)).
Proof.
  unfold collect_profits, py_index, paired_rows, list_index.
  destruct lines as [|first rest]; cbn [nth_error bind tl]; [discriminate|].
  destruct (index_from "profits in 2020(million)" (parse_row first) 0) as [i20|];
    cbn [bind]; [|discriminate].
  destruct (index_from "profits in 2021(million)" (parse_row first) 0) as [i21|];
    cbn [bind]; [|discriminate].
  destruct (index_from "country" (parse_row first) 0) as [ci|] eqn:Hci.
  - intros Hloop.
    assert (forall rest st st' rows,
              grouped (fst st) (map (fun r => (fst r, fst (snd r))) rows) ->
              for_each rest (add_profits (parse_row first) i20 i21) st = Ok st' ->
              grouped (fst st')
                (map (fun r => (fst r, fst (snd r)))
                     (rows ++ choose (paired_row ci i20 i21) rest))) as Hall.
    { clear Hloop rest. induction rest as [|line rest IH]; intros st st' rows Hg; simpl.
      - intros [= <-]. now rewrite app_nil_r.
      - destruct (add_profits (parse_row first) i20 i21 st line) as [st1|] eqn:E;
          [|discriminate].
        intros Hrest.
        pose proof (add_profits_grouped _ _ _ _ _ _ _ _ Hci Hg E) as Hg1.
        specialize (IH _ _ _ Hg1 Hrest). simpl in IH.
        destruct (paired_row ci i20 i21 line); simpl in *.
        + rewrite <- app_assoc in IH. exact IH.
        + rewrite app_nil_r in IH. exact IH. }
    destruct (Hall rest ([], []) _ [] grouped_nil Hloop) as [Hk _].
    simpl in Hk. rewrite Hk, map_map. reflexivity.
  - destruct rest as [|line rest]; cbn [for_each].
    + intros [= <- <-]. reflexivity.
    + unfold add_profits at 1, list_index. rewrite Hci. cbn [bind]. discriminate.
Qed.

Lemma score_loop (profits_2020 profits_2021 : dict (list R)) (ks : list string) :
  NoDup ks ->
  forall s t : dict R,
  (forall k, In k ks -> ~ In k (keys s)) ->
  for_each ks (add_score profits_2020 profits_2021) s = Ok t ->
  keys t = (keys s ++ ks)%list
  /\ (forall k, ~ In k ks -> dict_get t k = dict_get s k)
  /\ forall k, In k ks ->
       exists v20 v21 x,
         dict_get profits_2020 k = Some v20 /\ dict_get profits_2021 k = Some v21
         /\ t_statistic v20 v21 = Ok x /\ dict_get t k = Some (round4 x).
Proof.
  induction ks as [|k0 ks IH]; intros Hnd s t Hfresh.
  - simpl. intros [= <-]. rewrite app_nil_r. repeat split; auto. intros k [].
  - inversion Hnd as [|? ? Hk0 Hnd']; subst. cbn [for_each].
    destruct (add_score profits_2020 profits_2021 s k0) as [s1|] eqn:E; [|discriminate].
    unfold add_score, dict_item in E.
    destruct (dict_get profits_2020 k0) as [v20|] eqn:G20; cbn [bind] in E; [|discriminate].
    destruct (dict_get profits_2021 k0) as [v21|] eqn:G21; cbn [bind] in E; [|discriminate].
    destruct (t_statistic v20 v21) as [x|] eqn:T; cbn [bind] in E; [|discriminate].
    injection E as <-. intros Hrest.
    assert (dict_mem s k0 = false) as Hmem.
    { destruct (dict_mem s k0) eqn:M; [|reflexivity].
      apply dict_mem_in_keys in M. exfalso.
      apply (Hfresh k0); [left; reflexivity | assumption]. }
    destruct (IH Hnd' (dict_set s k0 (round4 x)) t) as (Hkeys & Hout & Hin);
      [|assumption|].
    { intros k Hk. rewrite keys_set, Hmem. intros H. apply in_app_or in H.
      destruct H as [H|[<-|[]]]; [|contradiction].
      apply (Hfresh k); [right; assumption | assumption]. }
    split; [|split].
    + rewrite Hkeys, keys_set, Hmem. now rewrite <- app_assoc.
    + intros k Hk. rewrite Hout by (intros H; apply Hk; right; assumption).
      rewrite dict_get_set. destruct (String.eqb k0 k) eqn:Eq; [|reflexivity].
      apply String.eqb_eq in Eq. exfalso. apply Hk. left. assumption.
    + intros k [<-|Hk]; [|apply Hin; assumption].
      exists v20, v21, x. repeat split; auto.
      rewrite Hout by assumption. rewrite dict_get_set, String.eqb_refl. reflexivity.
Qed.

(** X16: when [calculate_t_test] returns, its keys are the countries that
    have a row with two valid profits, in the order of their first such
    row; each of them has at least two such rows, and its score is the
    statistic of its two profit sequences, in row order, rounded to 4
    decimals. *)
Theorem t_test_scores_by_group (lines : list string) (scores : dict R) :
  calculate_t_test lines = Ok scores ->
  keys scores = first_seen (map fst (paired_rows lines))
  /\ forall country, In country (keys scores) ->
       let rows := rows_of country (paired_rows lines) in
       (2 <= List.length rows)%nat
       /\ exists t, t_statistic (map fst rows) (map snd rows) = Ok t
                    /\ dict_get scores country = Some (round4 t).
Proof.
  unfold calculate_t_test.
  destruct (collect_profits lines) as [[p20 p21]|] eqn:Hc; cbn [bind]; [|discriminate].
  intros Hloop.
  pose proof (collect_profits_keys _ _ _ Hc) as Hk20.
  destruct (collect_profits_lockstep _ _ Hc) as [_ Hget]. simpl in Hget.
  assert (NoDup (keys p20)) as Hnd by (rewrite Hk20; apply first_seen_nodup).
  destruct (score_loop p20 p21 (keys p20) Hnd [] scores) as (Hkeys & _ & Hin);
    [intros k _ [] | assumption |].
  simpl in Hkeys. split; [congruence|].
  intros country Hcountry. set (rows := rows_of country (paired_rows lines)).
  rewrite Hkeys in Hcountry.
  destruct (Hin _ Hcountry) as (v20 & v21 & x & G20 & G21 & T & Gs).
  destruct (Hget country) as [H20 H21]. fold rows in H20, H21.
  rewrite G20 in H20. rewrite G21 in H21.
  assert (v20 = map fst rows) as ->.
  { unfold group_values in H20. destruct (map fst rows); [discriminate | congruence]. }
  assert (v21 = map snd rows) as ->.
  { unfold group_values in H21. destruct (map snd rows); [discriminate | congruence]. }
  destruct (t_statistic_sample_sizes _ _ _ T) as [H1 _].
  rewrite length_map in H1. eauto.
Qed.

End MoreTTest.

(** ** More on [combine_t_test_and_minkowski] *)

Lemma in_choose {A C : Type} (f : A -> option C) (xs : list A) (y : C) :
  In y (choose f xs) <-> exists x, In x xs /\ f x = Some y.
Proof.
  induction xs as [|x xs IH]; simpl.
  - split; [tauto | intros (x & [] & _)].
  - destruct (f x) as [c|] eqn:E; simpl; rewrite IH; split.
    + intros [<-|(x' & Hx' & Hf)]; eauto.
    + intros (x' & [<-|Hx'] & Hf); [left; congruence | right; eauto].
    + intros (x' & Hx' & Hf). eauto.
    + intros (x' & [<-|Hx'] & Hf); [congruence | eauto].
Qed.

Lemma choose_length {A C : Type} (f : A -> option C) (xs : list A) :
  (List.length (choose f xs) <= List.length xs)%nat.
Proof.
  induction xs as [|x xs IH]; simpl; [lia|]. destruct (f x); simpl; lia.
Qed.

Lemma choose_full {A C : Type} (f : A -> option C) (xs : list A) :
  List.length (choose f xs) = List.length xs ->
  forall x, In x xs -> f x <> None.
Proof.
  induction xs as [|x0 xs IH]; simpl; intros Hlen x Hin; [destruct Hin|].
  pose proof (choose_length f xs) as Hle.
  destruct (f x0) eqn:E; simpl in Hlen; [|lia].
  destruct Hin as [<-|Hin]; [congruence|]. apply IH; [lia | assumption].
Qed.

Section MoreCombine.

Context {B : Builtins}.

Lemma distances_keys (lines : list string) (p : R) (m : dict R) :
  calculate_minkowski_distances lines p = Ok m ->
  keys m = first_seen (map fst (point_rows lines)).
Proof.
  unfold calculate_minkowski_distances.
  destruct (country_points lines) as [cd|] eqn:Hcd; cbn [bind]; [|discriminate].
  destruct (country_points_grouped _ _ Hcd) as [Hg _].
  pose proof (grouped_nodup _ _ Hg) as Hnd. destruct Hg as [<- _].
  assert (forall items s t,
            NoDup (keys items) ->
            (forall k, In k (keys items) -> ~ In k (keys s)) ->
            for_each items (add_distance p) s = Ok t ->
            keys t = (keys s ++ keys items)%list) as Hloop.
  { clear. induction items as [|[c pts] items IH]; intros s t Hnd Hfresh; simpl.
    - intros [= <-]. now rewrite app_nil_r.
    - unfold keys in Hnd. simpl in Hnd. inversion Hnd as [|? ? Hc Hnd']; subst.
      destruct (minkowski_distance _ _ _) as [d|]; cbn [bind]; [|discriminate].
      intros Hrest.
      assert (dict_mem s c = false) as M.
      { destruct (dict_mem s c) eqn:M; [|reflexivity].
        apply dict_mem_in_keys in M. exfalso.
        apply (Hfresh c); [left; reflexivity | assumption]. }
      apply IH in Hrest; [|assumption|].
      + rewrite Hrest, keys_set, M. unfold keys. simpl. now rewrite <- app_assoc.
      + intros k Hk. rewrite keys_set, M.
        intros H. apply in_app_or in H. destruct H as [H|[<-|[]]]; [|contradiction].
        apply (Hfresh k); [right; assumption | assumption]. }
  intros H. apply (Hloop cd [] m Hnd) in H; [exact H | intros k _ []].
Qed.

Lemma t_test_keys (lines : list string) (t : dict R) :
  calculate_t_test lines = Ok t ->
  keys t = first_seen (map fst (paired_rows lines)).
Proof.
  unfold calculate_t_test.
  destruct (collect_profits lines) as [[p20 p21]|] eqn:Hc; cbn [bind]; [|discriminate].
  intros Hloop. pose proof (collect_profits_keys _ _ _ Hc) as Hk20.
  assert (NoDup (keys p20)) as Hnd by (rewrite Hk20; apply first_seen_nodup).
  destruct (score_loop p20 p21 (keys p20) Hnd [] t) as (Hkeys & _);
    [intros k _ [] | assumption |].
  simpl in Hkeys. congruence.
Qed.

(** A country with a valid profit row is a country of the distance engine,
    when that engine can read the table. *)
Lemma paired_countries_are_points (lines : list string) (cd : dict points) (k : string) :
  country_points lines = Ok cd ->
  In k (map fst (paired_rows lines)) -> In k (map fst (point_rows lines)).
Proof.
  intros Hcd Hin. destruct (country_points_grouped _ _ Hcd) as [_ Hlen].
  unfold paired_rows in Hin. unfold point_rows in *.
  destruct lines as [|first rest]; [destruct Hin|]. cbn [tl] in Hlen.
  destruct (index_from "country" (parse_row first) 0) as [ci|]; [|destruct Hin].
  destruct (index_from "profits in 2020(million)" (parse_row first) 0) as [i20|];
    [|destruct Hin].
  destruct (index_from "profits in 2021(million)" (parse_row first) 0) as [i21|];
    [|destruct Hin].
  apply in_map_iff in Hin. destruct Hin as ([k' ab] & Hk & Hin). simpl in Hk. subst k'.
  apply in_choose in Hin. destruct Hin as (line & Hline & Hrow).
  destruct (index_from "number of employees" (parse_row first) 0) as [ei|];
    [|destruct rest; [destruct Hline | discriminate]].
  destruct (index_from "median Salary" (parse_row first) 0) as [mi|];
    [|destruct rest; [destruct Hline | discriminate]].
  pose proof (choose_full _ _ Hlen line Hline) as Hsome.
  destruct (point_row ci ei mi line) as [[c pt]|] eqn:Hpt; [|contradiction].
  apply in_map_iff. exists (c, pt). split.
  - simpl. unfold point_row in Hpt. unfold paired_row in Hrow.
    destruct (nth_error (parse_row line) ci) as [c0|]; [|discriminate].
    destruct (nth_error (parse_row line) ei); [|discriminate].
    destruct (nth_error (parse_row line) mi); [|discriminate].
    destruct (py_int _); [|discriminate]. destruct (py_float _); [|discriminate].
    injection Hpt as <- _.
    destruct (nth_error (parse_row line) i20) as [s20|]; [|discriminate].
    destruct (nth_error (parse_row line) i21) as [s21|]; [|discriminate].
    destruct (py_float s20); [|discriminate]. destruct (py_float s21); [|discriminate].
    congruence.
  - apply in_choose. eauto.
Qed.

(** X17: when both engines succeed, no score is lost in the join: the
    combined result has exactly the keys of the t-test result, in its
    order, each with its score and its distance. *)
Theorem combine_keeps_every_score (lines : list string) (p : R) (t m : dict R) :
  calculate_t_test lines = Ok t ->
  calculate_minkowski_distances lines p = Ok m ->
  exists c, combine_t_test_and_minkowski lines p = Ok c
    /\ keys c = keys t
    /\ forall k tv, dict_get t k = Some tv ->
         exists mv, dict_get m k = Some mv /\ dict_get c k = Some (tv, mv).
Proof.
  intros Ht Hm.
  assert (forall k, In k (keys t) -> In k (keys m)) as Hsub.
  { intros k Hk. rewrite (t_test_keys _ _ Ht), in_first_seen in Hk.
    rewrite (distances_keys _ _ _ Hm), in_first_seen.
    unfold calculate_minkowski_distances in Hm.
    destruct (country_points lines) as [cd|] eqn:Hcd; [|discriminate].
    apply (paired_countries_are_points _ _ _ Hcd Hk). }
  unfold combine_t_test_and_minkowski. rewrite Ht, Hm. cbn [bind].
  destruct (combine_loop t m (keys t) (t_test_keys_nodup _ _ Ht) (fun k H => H) [])
    as (c & Hc & Hkeys & Hget); [intros k _ []|].
  exists c. split; [exact Hc|]. split.
  - simpl in Hkeys. rewrite Hkeys. apply forallb_filter_id.
    apply forallb_forall. intros k Hk. apply dict_mem_in_keys. auto.
  - intros k tv Hk.
    assert (In k (keys t)) as Hin by (apply dict_get_in_keys; congruence).
    specialize (Hsub k Hin). apply dict_get_in_keys in Hsub.
    destruct (dict_get m k) as [mv|] eqn:Gm; [|contradiction].
    exists mv. split; [reflexivity|]. rewrite Hget.
    destruct (in_dec string_dec k (keys t)); [|contradiction].
    unfold joined. now rewrite Hk, Gm.
Qed.

End MoreCombine.

(** ** More on [calculate_category_data] *)

Lemma grouped_twice_nil : grouped_twice [] [].
Proof. split; [reflexivity | intros c; reflexivity]. Qed.

Lemma grouped_twice_step (cd : dict orgs) (items : list (string * (string * entry)))
    (category org_id : string) (data : entry) (od' : orgs) :
  grouped_twice cd items ->
  dict_append
    (setdefault (match dict_get cd category with Some od => od | None => [] end) org_id [])
    org_id data = Ok od' ->
  grouped_twice (dict_set (setdefault cd category []) category od')
    (items ++ [(category, (org_id, data))]).
Proof.
  intros [Hkeys Hget] Happ. split.
  - rewrite keys_set, map_app. cbn [map fst]. rewrite first_seen_snoc.
    assert (dict_mem (setdefault cd category []) category = true) as ->.
    { unfold dict_mem. rewrite setdefault_get, String.eqb_refl. reflexivity. }
    unfold setdefault.
    assert (dict_mem cd category = existsb (String.eqb category) (map fst items)) as <-.
    { apply eq_true_iff_eq. rewrite existsb_eqb_in, <- in_first_seen, <- Hkeys.
      apply dict_mem_in_keys. }
    destruct (dict_mem cd category) eqn:M; [assumption|].
    rewrite keys_set, M, Hkeys. reflexivity.
  - intros c. rewrite dict_get_set, items_of_app. unfold items_of at 2 4. simpl.
    destruct (String.eqb category c) eqn:E; simpl.
    + apply String.eqb_eq in E. subst c. specialize (Hget category).
      refine (grouped_step _ _ _ _ _ _ Happ).
      destruct (dict_get cd category); [assumption|].
      rewrite Hget. apply grouped_nil.
    + rewrite setdefault_get, E, app_nil_r. apply Hget.
Qed.

Lemma dict_append_item {V : Type} (d : dict (list V)) (k : string) (x : V) (l : list V) :
  dict_item d k = Ok l -> dict_append d k x = Ok (dict_set d k (l ++ [x])%list).
Proof. intros H. unfold dict_append. now rewrite H. Qed.

Section MoreCategory.

Context {B : Builtins}.

Lemma category_row_grouped (cd cd' : dict orgs) (row : list string)
    (items : list (string * (string * entry))) :
  grouped_twice cd items ->
  category_row cd row = Ok cd' ->
  grouped_twice cd' (items ++ choose category_entry [row]).
Proof.
  intros Hg. unfold category_row, category_row_try, int_of, float_of, py_index.
  cbn [choose]. unfold category_entry.
  destruct (nth_error row 5) as [c5|]; cbn [bind];
    [|intros [= <-]; now rewrite app_nil_r].
  destruct (nth_error row 0) as [c0|]; cbn [bind];
    [|intros [= <-]; now rewrite app_nil_r].
  destruct (nth_error row 6) as [c6|]; cbn [bind];
    [|intros [= <-]; now rewrite app_nil_r].
  destruct (py_int c6) as [n|]; cbn [bind];
    [|intros [= <-]; now rewrite app_nil_r].
  destruct (nth_error row 8) as [c8|]; cbn [bind];
    [|intros [= <-]; now rewrite app_nil_r].
  destruct (py_float c8) as [p20|]; cbn [bind];
    [|intros [= <-]; now rewrite app_nil_r].
  destruct (nth_error row 9) as [c9|]; cbn [bind];
    [|intros [= <-]; now rewrite app_nil_r].
  destruct (py_float c9) as [p21|]; cbn [bind];
    [|intros [= <-]; now rewrite app_nil_r].
  destruct (n <=? 0)%Z; [cbv beta iota; intros [= <-]; now rewrite app_nil_r|].
  destruct (py_div (p21 - p20) p20) as [q|e] eqn:D; cbn [bind].
  2:{ apply py_div_raises_zero in D. subst e. discriminate. }
  assert (q = (p21 - p20) / p20) as ->.
  { unfold py_div in D. destruct (Req_EM_T p20 0); [discriminate | congruence]. }
  unfold dict_item at 1. rewrite setdefault_get, String.eqb_refl. cbn [bind].
  set (od := match dict_get cd (lower c5) with Some v => v | None => [] end).
  destruct (setdefault_item od c0 []) as (info & I). rewrite I. cbn [bind].
  intros [= <-]. apply grouped_twice_step; [assumption|].
  apply dict_append_item. exact I.
Qed.

Lemma category_loop_grouped (rows : list (list string)) :
  forall cd cd' items,
  grouped_twice cd items ->
  for_each rows category_row cd = Ok cd' ->
  grouped_twice cd' (items ++ choose category_entry rows).
Proof.
  induction rows as [|row rows IH]; intros cd cd' items Hg; simpl.
  - intros [= <-]. now rewrite app_nil_r.
  - destruct (category_row cd row) as [cd1|] eqn:E; [|discriminate].
    intros Hrest. pose proof (category_row_grouped _ _ _ _ Hg E) as Hg1.
    specialize (IH _ _ _ Hg1 Hrest). simpl in Hg1, IH.
    destruct (category_entry row); simpl in *.
    + rewrite <- app_assoc in IH. exact IH.
    + rewrite app_nil_r in IH. exact IH.
Qed.

Lemma rank_orgs_get (od ranked : orgs) :
  NoDup (keys od) ->
  rank_orgs od = Ok ranked ->
  keys ranked = keys od
  /\ forall id info, dict_get ranked id = Some info ->
       exists rank info0,
         dict_get od id = Some info0 /\ info = map (append_rank rank) info0.
Proof.
  intros Hnd Hranked.
  destruct (rank_orgs_ok od ranked Hnd Hranked)
    as (l & rank & _ & _ & Hkeys & _ & Hback & _).
  split; [exact Hkeys|].
  intros id info H. destruct (Hback id info H) as (k & info0 & _ & G & ->). eauto.
Qed.

(** X18: when the call returns, its categories are the lower-cased
    categories of the counted rows in order of first appearance; inside a
    category the organisations are in order of first appearance too (not
    in rank order), and the lists of an organisation are those of its
    counted rows, in row order, each with the organisation's rank appended. *)
Theorem category_data_groups_rows (csv_data : list (list string)) (result : dict orgs) :
  calculate_category_data csv_data = Ok result ->
  let items := choose category_entry (tl csv_data) in
  keys result = first_seen (map fst items)
  /\ forall category ranked, dict_get result category = Some ranked ->
       keys ranked = first_seen (map fst (items_of category items))
       /\ forall id info, dict_get ranked id = Some info ->
            exists rank,
              info = map (append_rank rank) (items_of id (items_of category items)).
Proof.
  unfold calculate_category_data.
  destruct (for_each (tl csv_data) category_row []) as [cd|] eqn:Hloop;
    cbn [bind]; [|discriminate].
  intros Hrank. set (items := choose category_entry (tl csv_data)).
  destruct (category_loop_grouped _ _ _ [] grouped_twice_nil Hloop) as [Hkeys Hget].
  simpl in Hkeys, Hget. fold items in Hkeys, Hget.
  destruct (rank_categories_ok _ _ Hrank) as [Hrk Hcat].
  split; [congruence|].
  intros category ranked Hranked.
  destruct (Hcat _ _ Hranked) as (od & G & Hod).
  specialize (Hget category). rewrite G in Hget. destruct Hget as [Hk Hg].
  assert (NoDup (keys od)) as Hnd by (rewrite Hk; apply first_seen_nodup).
  destruct (rank_orgs_get od ranked Hnd Hod) as [Hok Hrg].
  split; [congruence|].
  intros id info Hinfo. destruct (Hrg _ _ Hinfo) as (rank & info0 & G0 & ->).
  exists rank. f_equal. rewrite Hg in G0.
  unfold nonempty in G0. destruct (items_of id (items_of category items));
    [discriminate | congruence].
Qed.

End MoreCategory.

(** ** Keys and counts of the category data *)

Lemma size_score_positive (info : list entry) :
  info <> [] -> Forall (fun data => (0 < employees data)%Z) info ->
  (0 < size_score info)%Z.
Proof.
  unfold size_score. intros Hne Hall.
  assert (forall l acc, Forall (fun data => (0 < employees data)%Z) l ->
                        (acc <= fold_left Z.add (map employees l) acc)%Z
                        /\ (l <> [] -> acc < fold_left Z.add (map employees l) acc)%Z) as H.
  { induction l as [|x l IH]; intros acc Hl; simpl; [split; [lia | congruence]|].
    inversion Hl as [|? ? Hx Hl']; subst.
    destruct (IH (acc + employees x)%Z Hl') as [Hle _].
    split; [lia | intros _; lia]. }
  apply H; assumption.
Qed.

Section CategoryKeys.

Context {B : Builtins}.

Lemma category_entry_inv (row : list string) (category id : string) (data : entry) :
  category_entry row = Some (category, (id, data)) ->
  (exists cell, nth_error row 5 = Some cell /\ category = lower cell)
  /\ nth_error row 0 = Some id
  /\ (0 < employees data)%Z /\ appended data = [].
Proof.
  unfold category_entry.
  destruct (nth_error row 5) as [c5|]; [|discriminate].
  destruct (nth_error row 0) as [c0|]; [|discriminate].
  destruct (nth_error row 6) as [c6|]; [|discriminate].
  destruct (py_int c6) as [n|]; [|discriminate].
  destruct (nth_error row 8) as [c8|]; [|discriminate].
  destruct (py_float c8) as [p20|]; [|discriminate].
  destruct (nth_error row 9) as [c9|]; [|discriminate].
  destruct (py_float c9) as [p21|]; [|discriminate].
  destruct (n <=? 0)%Z eqn:E; [discriminate|]. apply Z.leb_gt in E.
  intros [= <- <- <-]. simpl. repeat split; eauto.
Qed.

(** X19: the categories of the result are what [lower] makes of the
    category cells: each key is the lower-cased category cell of some data
    row, and no key occurs twice. *)
Theorem category_keys_lower_case (csv_data : list (list string)) (result : dict orgs) :
  calculate_category_data csv_data = Ok result ->
  NoDup (keys result)
  /\ forall category, In category (keys result) ->
       exists row cell,
         In row (tl csv_data) /\ nth_error row 5 = Some cell /\ category = lower cell.
Proof.
  unfold calculate_category_data.
  destruct (for_each (tl csv_data) category_row []) as [cd|] eqn:Hloop;
    cbn [bind]; [|discriminate].
  intros Hrank. destruct (rank_categories_ok _ _ Hrank) as [Hrk _].
  destruct (category_loop_grouped _ _ _ [] grouped_twice_nil Hloop) as [Hkeys _].
  simpl in Hkeys. rewrite Hrk, Hkeys. split; [apply first_seen_nodup|].
  intros category. rewrite in_first_seen, in_map_iff.
  intros ([c [id data]] & Hc & Hin). simpl in Hc. subst c.
  apply in_choose in Hin. destruct Hin as (row & Hrow & Hentry).
  destruct (category_entry_inv _ _ _ _ Hentry) as ((cell & Hcell & ->) & _).
  eauto.
Qed.

(** X20: every list of the result carries a positive employee count, so every
    organisation of the result has a positive size score. *)
Theorem category_entries_positive (csv_data : list (list string)) (result : dict orgs)
    (category id : string) (ranked : orgs) (info : list entry) :
  calculate_category_data csv_data = Ok result ->
  dict_get result category = Some ranked ->
  dict_get ranked id = Some info ->
  Forall (fun data => (0 < employees data)%Z) info /\ (0 < size_score info)%Z.
Proof.
  unfold calculate_category_data.
  destruct (for_each (tl csv_data) category_row []) as [cd|] eqn:Hloop;
    cbn [bind]; [|discriminate].
  intros Hrank Hranked Hinfo. destruct (rank_categories_ok _ _ Hrank) as [_ Hcat].
  destruct (Hcat _ _ Hranked) as (od & Hod & Hranks).
  destruct (category_loop_grouped _ _ _ [] grouped_twice_nil Hloop) as [_ Hget].
  simpl in Hget. specialize (Hget category). rewrite Hod in Hget.
  destruct Hget as [Hk Hg].
  assert (NoDup (keys od)) as Hnd by (rewrite Hk; apply first_seen_nodup).
  destruct (rank_orgs_get od ranked Hnd Hranks) as [_ Hrg].
  destruct (Hrg _ _ Hinfo) as (rank & info0 & G & ->). rewrite Hg in G.
  assert (Forall (fun data => (0 < employees data)%Z) (map (append_rank rank) info0)) as Hall.
  { apply Forall_map, Forall_forall. intros data Hdata. simpl.
    assert (In data (items_of id
              (items_of category (choose category_entry (tl csv_data))))) as Hin.
    { unfold nonempty in G. destruct (items_of id _); [discriminate|].
      injection G as <-. assumption. }
    unfold items_of in Hin. apply in_map_iff in Hin.
    destruct Hin as ([id' data'] & Hd & Hin). simpl in Hd. subst data'.
    apply filter_In in Hin. destruct Hin as [Hin _].
    apply in_map_iff in Hin. destruct Hin as ([c item] & Hitem & Hin).
    simpl in Hitem. subst item.
    apply filter_In in Hin. destruct Hin as [Hin _].
    apply in_choose in Hin. destruct Hin as (row & _ & Hentry).
    apply category_entry_inv in Hentry. tauto. }
  split; [assumption|]. apply size_score_positive; [|assumption].
  unfold nonempty in G. destruct (items_of id _); [discriminate|].
  injection G as <-. discriminate.
Qed.

Lemma skipped_rows_loop (rows : list (list string)) (cd : dict orgs) :
  (forall row, In row rows -> skipped_row row) ->
  for_each rows category_row cd = Ok cd.
Proof.
  induction rows as [|row rows IH]; intros Hall; [reflexivity|].
  cbn [for_each]. rewrite category_row_skips by (apply Hall; left; reflexivity).
  apply IH. intros r Hr. apply Hall. right. assumption.
Qed.

(** X21: when every data row is one the program skips, the result is the
    empty dictionary. *)
Theorem all_rows_skipped (csv_data : list (list string)) :
  (forall row, In row (tl csv_data) -> skipped_row row) ->
  calculate_category_data csv_data = Ok [].
Proof.
  intros Hall. unfold calculate_category_data.
  rewrite skipped_rows_loop by assumption. reflexivity.
Qed.

(** X22: on a table whose data lines have fewer than 10 cells, such as one
    that has only the five named columns, [main] returns, if at all, the
    combined scores with an empty category ranking. *)
Theorem main_narrow_table (lines : list string) :
  (forall line, In line (tl lines) -> (List.length (parse_row line) <= 9)%nat) ->
  main lines
  = (output1 <- combine_t_test_and_minkowski lines 3 ;; Ok (output1, [])).
Proof.
  intros Hshort. unfold main.
  destruct (combine_t_test_and_minkowski lines 3) as [o1|]; cbn [bind]; [|reflexivity].
  unfold calculate_category_data.
  rewrite skipped_rows_loop; [reflexivity|].
  intros row Hrow. left. destruct lines as [|first rest]; [destruct Hrow|].
  cbn [map tl] in Hrow. apply in_map_iff in Hrow. destruct Hrow as (line & <- & Hline).
  apply Hshort. assumption.
Qed.

(** X23: [main] is as strict as its strictest engine.  On a table whose
    seventh column is the one named "number of employees", a data line
    whose employee cell is not an integer is a row that
    [calculate_category_data] skips, and yet it leaves [main] without a
    result: [calculate_minkowski_distances] does not skip it. *)
Theorem main_malformed_cell_is_fatal (first line : string) (rest : list string)
    (cell : string) :
  In line rest ->
  index_from "number of employees" (parse_row first) 0 = Some 6%nat ->
  nth_error (parse_row line) 6 = Some cell ->
  py_int cell = None ->
  (forall category_data,
     category_row category_data (parse_row line) = Ok category_data)
  /\ forall outputs, main (first :: rest) <> Ok outputs.
Proof.
  intros Hin Hindex Hcell Hbad. split.
  - intros category_data. apply category_row_skips.
    right. left. exists cell. auto.
  - intros outputs. unfold main, combine_t_test_and_minkowski.
    destruct (calculate_t_test (first :: rest)); cbn [bind]; [|discriminate].
    destruct (calculate_minkowski_distances (first :: rest) 3) as [m|] eqn:Hm;
      cbn [bind]; [|discriminate].
    exfalso.
    apply (malformed_cell_stops_distances first line rest 6 cell 3 Hin Hcell
             (or_introl (conj Hindex Hbad)) m Hm).
Qed.

End CategoryKeys.

(** ** The properties on concrete inputs *)




Lemma country_points_groups_rows_witness :
  country_points distance_example = Ok [("X", [(10%Z, 100); (20%Z, 200)])]
  /\ keys [("X", [(10%Z, 100); (20%Z, 200)])]
     = first_seen (map fst (point_rows distance_example))
  /\ (forall country,
        dict_get [("X", [(10%Z, 100); (20%Z, 200)])] country
        = nonempty (items_of country (point_rows distance_example)))
  /\ List.length (point_rows distance_example) = List.length (tl distance_example).
Proof.
  split; [exact distance_example_points|].
  exact (country_points_groups_rows distance_example _ distance_example_points).
Defined.

Lemma distances_malformed_cell_is_fatal_witness :
  py_int "ten" = None
  /\ forall m, calculate_minkowski_distances malformed_example 3 <> Ok m.
Proof.
  split; [reflexivity|].
  apply (distances_malformed_cell_is_fatal
           ("country,number of employees,median Salary" ++ newline)
           ("X,ten,200.0" ++ newline)
           ["X,10,100.0" ++ newline; "X,ten,200.0" ++ newline] 1 "ten" 3).
  - right. left. reflexivity.
  - reflexivity.
  - left. split; reflexivity.
Defined.

Lemma distances_are_rounded_group_distances_witness :
  country_points distance_example = Ok [("X", [(10%Z, 100); (20%Z, 200)])]
  /\ exists m, calculate_minkowski_distances distance_example 3 = Ok m
       /\ keys m = keys [("X", [(10%Z, 100); (20%Z, 200)])]
       /\ forall country pts,
            dict_get [("X", [(10%Z, 100); (20%Z, 200)])] country = Some pts ->
            exists d, minkowski_distance (feature_x1 pts) (feature_x2 pts) 3 = Ok d
                      /\ dict_get m country = Some (round4 d).
Proof.
  split; [exact distance_example_points|].
  eexists. split; [exact distance_example_result|].
  exact (distances_are_rounded_group_distances distance_example _ 3 _
           distance_example_points distance_example_result).
Defined.

Lemma t_test_missing_profit_column_witness :
  calculate_t_test ["country,profits in 2021(million)"; "Y,10"]
  = Raise (ValueError not_in_list_msg).
Proof.
  apply (t_test_missing_profit_column "country,profits in 2021(million)" ["Y,10"]).
  left. reflexivity.
Defined.

Lemma distances_missing_column_witness :
  calculate_minkowski_distances ["country,number of employees"; "Y,10"] 3
  = Raise (ValueError not_in_list_msg).
Proof.
  apply (distances_missing_column "country,number of employees" ["Y,10"] 3).
  right. reflexivity.
Defined.

Lemma missing_country_column_witness :
  calculate_t_test [no_country_header; "5,50,1,2"]
    = Raise (ValueError not_in_list_msg)
  /\ calculate_minkowski_distances [no_country_header; "5,50,1,2"] 3
    = Raise (ValueError not_in_list_msg).
Proof.
  exact (missing_country_column no_country_header ["5,50,1,2"] 3 2 3 0 1
           eq_refl eq_refl eq_refl eq_refl eq_refl).
Defined.

Lemma t_statistic_exchange_witness :
  exists t, t_statistic [10; 12] [11; 13] = Ok t
    /\ t_statistic [11; 13] [10; 12] = Ok (- t).
Proof.
  destruct sample_statistic as [t Ht]. exists t. split; [exact Ht|].
  exact (t_statistic_exchange [10; 12] [11; 13] t Ht).
Defined.

Lemma t_test_scores_by_group_witness :
  exists scores, calculate_t_test combine_example = Ok scores
    /\ keys scores = first_seen (map fst (paired_rows combine_example))
    /\ forall country, In country (keys scores) ->
         let rows := rows_of country (paired_rows combine_example) in
         (2 <= List.length rows)%nat
         /\ exists t, t_statistic (map fst rows) (map snd rows) = Ok t
                      /\ dict_get scores country = Some (round4 t).
Proof.
  destruct combine_example_scores as [t Ht]. exists t. split; [exact Ht|].
  exact (t_test_scores_by_group combine_example t Ht).
Defined.

Lemma combine_keeps_every_score_witness :
  exists t m c,
    calculate_t_test combine_example = Ok t
    /\ calculate_minkowski_distances combine_example 3 = Ok m
    /\ combine_t_test_and_minkowski combine_example 3 = Ok c
    /\ keys c = keys t
    /\ forall k tv, dict_get t k = Some tv ->
         exists mv, dict_get m k = Some mv /\ dict_get c k = Some (tv, mv).
Proof.
  destruct combine_example_scores as [t Ht].
  destruct (distances_total combine_example _ 3 combine_example_points) as [m Hm];
    [lra|].
  destruct (combine_keeps_every_score combine_example 3 t m Ht Hm) as (c & Hc).
  exists t, m, c. auto.
Defined.

Lemma category_data_groups_rows_witness :
  calculate_category_data retail_example = Ok [("retail", retail_ranked)]
  /\ let items := choose category_entry (tl retail_example) in
     keys [("retail", retail_ranked)] = first_seen (map fst items)
     /\ forall category ranked,
          dict_get [("retail", retail_ranked)] category = Some ranked ->
          keys ranked = first_seen (map fst (items_of category items))
          /\ forall id info, dict_get ranked id = Some info ->
               exists rank,
                 info = map (append_rank rank) (items_of id (items_of category items)).
Proof.
  split; [exact retail_example_result|].
  exact (category_data_groups_rows retail_example _ retail_example_result).
Defined.

Lemma category_keys_lower_case_witness :
  calculate_category_data retail_example = Ok [("retail", retail_ranked)]
  /\ NoDup (keys [("retail", retail_ranked)])
  /\ forall category, In category (keys [("retail", retail_ranked)]) ->
       exists row cell,
         In row (tl retail_example) /\ nth_error row 5 = Some cell
         /\ category = lower cell.
Proof.
  split; [exact retail_example_result|].
  exact (category_keys_lower_case retail_example _ retail_example_result).
Defined.

Lemma category_entries_positive_witness :
  exists info,
    dict_get retail_ranked "B" = Some info
    /\ Forall (fun data => (0 < employees data)%Z) info /\ (0 < size_score info)%Z.
Proof.
  eexists. split; [reflexivity|].
  exact (category_entries_positive retail_example _ "retail" "B" retail_ranked _
           retail_example_result eq_refl eq_refl).
Defined.

Lemma all_rows_skipped_witness :
  calculate_category_data [retail_header; malformed_row; ["short"]] = Ok [].
Proof.
  apply (all_rows_skipped [retail_header; malformed_row; ["short"]]).
  intros row [<-|[<-|[]]].
  - exact malformed_row_skipped.
  - left. simpl. lia.
Defined.

Lemma main_narrow_table_witness :
  main combine_example
  = (output1 <- combine_t_test_and_minkowski combine_example 3 ;; Ok (output1, [])).
Proof.
  apply (main_narrow_table combine_example).
  intros line [<-|[<-|[<-|[]]]]; vm_compute; lia.
Defined.

Lemma strict_example_collected :
  collect_profits strict_example = Ok ([("Y", [10; 12])], [("Y", [11; 13])]).
Proof. run. reflexivity. Qed.

(** The t test has nothing against the table with the malformed employee
    cell. *)
Lemma strict_example_scores : exists t, calculate_t_test strict_example = Ok t.
Proof.
  unfold calculate_t_test. rewrite strict_example_collected.
  cbn [bind keys map fst for_each add_score dict_item dict_get String.eqb Ascii.eqb Bool.eqb].
  destruct sample_statistic as (t & ->). cbn [bind]. eauto.
Qed.

Lemma main_malformed_cell_is_fatal_witness :
  py_int "many" = None
  /\ (exists t, calculate_t_test strict_example = Ok t)
  /\ (forall category_data,
        category_row category_data
          (parse_row ("B,Y,,,,Retail,many,200,12,13" ++ newline))
        = Ok category_data)
  /\ forall outputs, main strict_example <> Ok outputs.
Proof.
  split; [reflexivity|]. split; [exact strict_example_scores|].
  apply (main_malformed_cell_is_fatal
           (strict_header ++ newline)
           ("B,Y,,,,Retail,many,200,12,13" ++ newline)
           ["A,Y,,,,Retail,10,100,10,11" ++ newline;
            "B,Y,,,,Retail,many,200,12,13" ++ newline] "many").
  - right. left. reflexivity.
  - reflexivity.
  - reflexivity.
  - reflexivity.
Defined.
